(** * Spaced-repetition progress tracking of the vocabulary application

    A shallow embedding of the [vocabulary] application that
    [django_lang_app.py] writes out: the [UserProgress] model of
    [MODELS_PY] with its [success_rate] property and its
    [update_progress] method, and the [practice] view of [VIEWS_PY]
    that selects the words of a practice session; further the
    [accuracy] of a [StudySession] and the views [word_list],
    [check_answer] and [progress_view].

    Python integers are unbounded and are modelled by [Z].  A timestamp
    is a count of microseconds (the resolution of [datetime]); the
    clock [timezone.now()] is read by the code and is passed to the
    model as one argument per read.  Python floats are IEEE 754
    binary64 numbers and are modelled by [spec_float] at precision 53. *)

From Stdlib Require Import ZArith List Bool Lia String Ascii.
From Stdlib Require Import Sorted Permutation.
From Stdlib Require Import Floats.SpecFloat.
Import ListNotations.

Local Open Scope Z_scope.

(** ** Python values the code relies on *)

Module Py.

(** The exceptions the modelled expressions can raise. *)
Inductive exn : Type :=
| IndexError
| ZeroDivisionError
| OverflowError
| ValueError.

(** The result of evaluating an expression or running a call. *)
Inductive result (A : Type) : Type :=
| Return (a : A)
| Raise (e : exn).

Arguments Return {A} a.
Arguments Raise {A} e.

Definition bind {A B : Type} (r : result A) (k : A -> result B) : result B :=
  match r with
  | Return a => k a
  | Raise e => Raise e
  end.

(** [len(l)] as a Python integer. *)
Definition len {A : Type} (l : list A) : Z := Z.of_nat (List.length l).

(** [l[i]]: a negative index counts from the end of the list, and an
    index that is still out of range raises [IndexError]. *)
Definition getitem {A : Type} (l : list A) (i : Z) : result A :=
  let j := if i <? 0 then i + len l else i in
  if (j <? 0) || (len l <=? j) then Raise IndexError
  else match nth_error l (Z.to_nat j) with
       | Some a => Return a
       | None => Raise IndexError
       end.

(** [l[:k]] for a list and [qs[:k]] for a query set with [0 <= k]. *)
Definition slice_to {A : Type} (k : Z) (l : list A) : list A :=
  firstn (Z.to_nat k) l.

(** *** Floats *)

Definition prec : Z := 53.
Definition emax : Z := 1024.

Definition float : Type := spec_float.

(** An integer as an unrounded binary number with exponent 0. *)
Definition exact (n : Z) : spec_float :=
  match n with
  | Z0 => S754_zero false
  | Zpos p => S754_finite false p 0
  | Zneg p => S754_finite true p 0
  end.

(** [float(n)]: the nearest binary64 number, ties to even. *)
Definition float_of_int (n : Z) : result float :=
  match binary_normalize prec emax n 0 false with
  | S754_infinity _ => Raise OverflowError
  | x => Return x
  end.

(** [a / b] on two integers: the exact quotient rounded once to the
    nearest binary64 number. *)
Definition int_truediv (a b : Z) : result float :=
  if b =? 0 then Raise ZeroDivisionError
  else match SFdiv prec emax (exact a) (exact b) with
       | S754_infinity _ => Raise OverflowError
       | x => Return x
       end.

(** [x * n] for a float [x] and an integer [n]: [n] is converted to a
    float first. *)
Definition float_mul_int (x : float) (n : Z) : result float :=
  bind (float_of_int n) (fun y => Return (SFmul prec emax x y)).

(** [int(x)]: truncation towards zero. *)
Definition int_of_float (x : float) : result Z :=
  match x with
  | S754_zero _ => Return 0
  | S754_infinity _ => Raise OverflowError
  | S754_nan => Raise ValueError
  | S754_finite s m e =>
      let a := match e with
               | Zneg k => Z.shiftr (Zpos m) (Zpos k)
               | _ => Z.shiftl (Zpos m) e
               end in
      Return (if s then - a else a)
  end.

(** *** Time *)

Definition datetime : Type := Z.

(** [timedelta(days=d)] in microseconds. *)
Definition timedelta_days (d : Z) : Z := d * 86400000000.

End Py.

Import Py.

(** ** The models of [MODELS_PY] *)

Record Word : Type := mkWord {
  word_id : Z;
  language : Z;
  word_text : string;
  translation : string;
  pronunciation : string;
  example_sentence : string;
  difficulty : string;
  created_at : datetime
}.

Record UserProgress : Type := mkUserProgress {
  id : Z;
  user : Z;
  word : Z;
  mastery_level : Z;
  correct_count : Z;
  incorrect_count : Z;
  last_reviewed : datetime;
  next_review : datetime
}.

Record StudySession : Type := mkStudySession {
  session_id : Z;
  session_user : Z;
  start_time : datetime;
  end_time : option datetime;
  words_practiced : Z;
  correct_answers : Z
}.

(** Assignments to the attributes of [self]. *)
Definition set_mastery_level (self : UserProgress) (v : Z) : UserProgress :=
  mkUserProgress (id self) (user self) (word self) v (correct_count self)
    (incorrect_count self) (last_reviewed self) (next_review self).

Definition set_correct_count (self : UserProgress) (v : Z) : UserProgress :=
  mkUserProgress (id self) (user self) (word self) (mastery_level self) v
    (incorrect_count self) (last_reviewed self) (next_review self).

Definition set_incorrect_count (self : UserProgress) (v : Z) : UserProgress :=
  mkUserProgress (id self) (user self) (word self) (mastery_level self)
    (correct_count self) v (last_reviewed self) (next_review self).

Definition set_last_reviewed (self : UserProgress) (v : datetime) : UserProgress :=
  mkUserProgress (id self) (user self) (word self) (mastery_level self)
    (correct_count self) (incorrect_count self) v (next_review self).

Definition set_next_review (self : UserProgress) (v : datetime) : UserProgress :=
  mkUserProgress (id self) (user self) (word self) (mastery_level self)
    (correct_count self) (incorrect_count self) (last_reviewed self) v.

(** A row as [get_or_create] makes it: the field defaults, with one
    clock read for each of the two timestamps. *)
Definition fresh (i u w : Z) (t1 t2 : datetime) : UserProgress :=
  mkUserProgress i u w 0 0 0 t1 t2.

(** [UserProgress.success_rate]. *)
Definition success_rate (self : UserProgress) : result Z :=
  let total := correct_count self + incorrect_count self in
  if total =? 0 then Return 0
  else
    bind (int_truediv (correct_count self) total) (fun q =>
    bind (float_mul_int q 100) (fun x =>
    int_of_float x)).

(** The success rate as the specification words it: the floor of
    [100 * correct_count / (correct_count + incorrect_count)], and 0
    when both counters are zero. *)
Definition success_rate_spec (self : UserProgress) : Z :=
  if (correct_count self =? 0) && (incorrect_count self =? 0) then 0
  else (100 * correct_count self) / (correct_count self + incorrect_count self).

(** The pairs of counters below [n], and those of them on which the
    rate of the code is not the rate of the specification. *)
Definition counters_below (n : nat) : list (Z * Z) :=
  flat_map (fun c => map (fun i => (Z.of_nat c, Z.of_nat i)) (seq 0 n)) (seq 0 n).

Definition rate_differs (ci : Z * Z) : bool :=
  let self := mkUserProgress 0 0 0 0 (fst ci) (snd ci) 0 0 in
  match success_rate self with
  | Return r => negb (r =? success_rate_spec self)
  | Raise _ => true
  end.

(** The table of [update_progress]. *)
Definition intervals : list Z := [1; 3; 7; 14; 30; 60].

(** The body of [UserProgress.update_progress] up to its last statement:
    the object with the fields the method has set, and whether the body
    reached [self.save()] or raised before it.  [t1] and [t2] are the
    two reads of [timezone.now()].  The save and its failure are in
    [update_progress_call] below. *)
Definition update_progress (self : UserProgress) (is_correct : bool)
    (t1 t2 : datetime) : UserProgress * result unit :=
  let finish (self : UserProgress) (days : Z) :=
    let self := set_last_reviewed self t1 in
    let self := set_next_review self (t2 + timedelta_days days) in
    (self, Return tt) in
  if is_correct then
    let self := set_correct_count self (correct_count self + 1) in
    let self := set_mastery_level self (Z.min 5 (mastery_level self + 1)) in
    match getitem intervals (mastery_level self) with
    | Return days => finish self days
    | Raise e => (self, Raise e)
    end
  else
    let self := set_incorrect_count self (incorrect_count self + 1) in
    let self := set_mastery_level self (Z.max 0 (mastery_level self - 1)) in
    finish self 1.

(** A run of answers for one row, as [check_answer] applies them: each
    answer comes with the two clock reads of its update, and the run
    stops at the first call that raises. *)
Fixpoint answer_all (self : UserProgress) (answers : list (bool * datetime * datetime))
    : UserProgress * result unit :=
  match answers with
  | [] => (self, Return tt)
  | (is_correct, t1, t2) :: rest =>
      match update_progress self is_correct t1 t2 with
      | (self', Return _) => answer_all self' rest
      | (self', Raise e) => (self', Raise e)
      end
  end.

(** The number of answers of a run that are correct ([b = true]) or
    wrong ([b = false]). *)
Definition count_answers (b : bool) (answers : list (bool * datetime * datetime)) : Z :=
  len (filter (fun a => Bool.eqb (fst (fst a)) b) answers).

(** ** The database and the query sets of [VIEWS_PY] *)

(** The tables, each in the order of its rows in storage, and the last
    key the [StudySession] table gave out. *)
Record Database : Type := mkDatabase {
  Word_objects : list Word;
  UserProgress_objects : list UserProgress;
  StudySession_objects : list StudySession;
  StudySession_seq : Z
}.

(** [ORDER BY]: a stable insertion sort for the order [leb]. *)
Section OrderBy.

Context {A : Type}.
Variable leb : A -> A -> bool.

Fixpoint insert (x : A) (l : list A) : list A :=
  match l with
  | [] => [x]
  | y :: l' => if leb x y then x :: y :: l' else y :: insert x l'
  end.

Definition order_by (l : list A) : list A := fold_right insert [] l.

End OrderBy.

(** [UserProgress.Meta.ordering = ['next_review']]. *)
Definition UserProgress_ordering (p q : UserProgress) : bool :=
  next_review p <=? next_review q.

(** [Word.Meta.ordering = ['difficulty', 'word']], the strings compared
    byte by byte. *)
Definition Word_ordering (v w : Word) : bool :=
  match String.compare (difficulty v) (difficulty w) with
  | Lt => true
  | Gt => false
  | Eq => String.leb (word_text v) (word_text w)
  end.

(** [UserProgress.objects.filter(user=..., next_review__lte=now)]. *)
Definition is_due (u : Z) (now : datetime) (p : UserProgress) : bool :=
  (user p =? u) && (next_review p <=? now).

(** [due_words] of [practice]. *)
Definition due_words (db : Database) (u : Z) (now : datetime) : list UserProgress :=
  slice_to 10 (order_by UserProgress_ordering
                 (filter (is_due u now) (UserProgress_objects db))).

(** [learned_word_ids] of [practice]; it is only used as a set. *)
Definition learned_word_ids (db : Database) (u : Z) : list Z :=
  map word (filter (fun p => user p =? u) (UserProgress_objects db)).

(** [Word.objects.exclude(id__in=learned_word_ids)]. *)
Definition not_learned (db : Database) (u : Z) (w : Word) : bool :=
  negb (existsb (Z.eqb (word_id w)) (learned_word_ids db u)).

(** [new_words] of [practice], sliced to [k] rows. *)
Definition new_words (db : Database) (u : Z) (k : Z) : list Word :=
  slice_to k (order_by Word_ordering
                (filter (not_learned db u) (Word_objects db))).

(** An element of the list [words] of [practice]: a progress row, or
    the object built for a new word. *)
Inductive entry : Type :=
| Progress (p : UserProgress)
| Obj (w : Word) (level : Z).

(** The list [words] of [practice]. *)
Definition practice_words (db : Database) (u : Z) (now : datetime) : list entry :=
  let due := due_words db u now in
  let new := new_words db u (10 - len due) in
  map Progress due ++ map (fun w => Obj w 0) new.

(** What [practice] renders: the page without words, or the page with
    the context list [words] and the key of the new session. *)
Inductive response : Type :=
| NoWords
| PracticePage (words : list (UserProgress + Word)) (session : Z).

(** [w if isinstance(w, UserProgress) else w.word]. *)
Definition context_word (e : entry) : UserProgress + Word :=
  match e with
  | Progress p => inl p
  | Obj w _ => inr w
  end.

(** [StudySession.objects.create(user=...)], [start] being the clock
    read of [auto_now_add]. *)
Definition create_session (db : Database) (u : Z) (start : datetime)
    : StudySession * Database :=
  let s := mkStudySession (StudySession_seq db + 1) u start None 0 0 in
  (s, mkDatabase (Word_objects db) (UserProgress_objects db)
        (StudySession_objects db ++ [s]) (session_id s)).

(** The view [practice] for the logged-in user [u]. *)
Definition practice (db : Database) (u : Z) (now start : datetime)
    : response * Database :=
  let words := practice_words db u now in
  match words with
  | [] => (NoWords, db)
  | _ :: _ =>
      let '(session, db') := create_session db u start in
      (PracticePage (map context_word words) (session_id session), db')
  end.

(** ** The other members of [MODELS_PY] and views of [VIEWS_PY] *)

(** [StudySession.accuracy]. *)
Definition accuracy (self : StudySession) : result Z :=
  if words_practiced self =? 0 then Return 0
  else
    bind (int_truediv (correct_answers self) (words_practiced self)) (fun q =>
    bind (float_mul_int q 100) (fun x =>
    int_of_float x)).

(** The percentage without rounding errors: the floor of
    [100 * part / whole]. *)
Definition percent_floor (part whole : Z) : Z := (100 * part) / whole.

(** Whether the rate of the code for the counters [ci] returns the
    floor of the percentage, and whether it returns the floor or one
    less and stays within 0 and 100. *)
Definition rate_exact (ci : Z * Z) : bool :=
  match success_rate (mkUserProgress 0 0 0 0 (fst ci) (snd ci) 0 0) with
  | Return r => r =? percent_floor (fst ci) (fst ci + snd ci)
  | Raise _ => false
  end.

Definition rate_close (ci : Z * Z) : bool :=
  match success_rate (mkUserProgress 0 0 0 0 (fst ci) (snd ci) 0 0) with
  | Return r =>
      (percent_floor (fst ci) (fst ci + snd ci) - 1 <=? r) &&
      (r <=? percent_floor (fst ci) (fst ci + snd ci)) &&
      (0 <=? r) && (r <=? 100)
  | Raise _ => false
  end.

(** A Python [dict] with integer keys, in insertion order: [d[k] = v]
    and [d.get(k)]. *)
Fixpoint dict_set {V : Type} (k : Z) (v : V) (d : list (Z * V)) : list (Z * V) :=
  match d with
  | [] => [(k, v)]
  | (k', v') :: d' =>
      if k' =? k then (k, v) :: d' else (k', v') :: dict_set k v d'
  end.

Fixpoint dict_get {V : Type} (k : Z) (d : list (Z * V)) : option V :=
  match d with
  | [] => None
  | (k', v') :: d' => if k' =? k then Some v' else dict_get k d'
  end.

(** [{p.word_id: p for p in UserProgress.objects.filter(user=...)}] of
    [word_list], the rows coming in the order of the model. *)
Definition user_progress (db : Database) (u : Z) : list (Z * UserProgress) :=
  fold_left (fun d p => dict_set (word p) p d)
    (order_by UserProgress_ordering
       (filter (fun p => user p =? u) (UserProgress_objects db)))
    [].

(** The context list [words_with_progress] of the view [word_list] for
    the logged-in user [u]; [GET_difficulty] is the parameter
    [difficulty] of the query string if it is there. *)
Definition word_list (db : Database) (u : Z) (GET_difficulty : option string)
    : list (Word * option UserProgress) :=
  let wanted := match GET_difficulty with Some s => s | None => EmptyString end in
  let words :=
    match wanted with
    | EmptyString => Word_objects db
    | _ => filter (fun w => String.eqb (difficulty w) wanted) (Word_objects db)
    end in
  map (fun w => (w, dict_get (word_id w) (user_progress db u)))
    (order_by Word_ordering words).



(** [sessions] of [progress_view]: the last 10 sessions of the user,
    the latest first. *)
Definition sessions (db : Database) (u : Z) : list StudySession :=
  slice_to 10
    (order_by (fun a b => start_time b <=? start_time a)
       (filter (fun s => session_user s =? u) (StudySession_objects db))).


(** *** The view [check_answer] *)

(** The string methods the view calls: [s.lower()], [s.strip()], and
    [int(s)] of the key fields, which is [None] when it raises. *)
Class PyStr : Type := {
  str_lower : string -> string;
  str_strip : string -> string;
  int_of_str : string -> option Z
}.

(** What the view reads of a request: the method and the results of
    [request.POST.get] for the three fields. *)
Record Request : Type := mkRequest {
  method : string;
  POST_word_id : option string;
  POST_answer : option string;
  POST_session_id : option string
}.

(** The exceptions that leave the view: those of the lookups, the
    error of the database when the keys of a table are used up, and
    the exceptions of Python. *)
Inductive failure : Type :=
| DoesNotExist
| MultipleObjectsReturned
| NotANumber
| OperationalError
| Raised (e : exn).

(** The responses of the view: the answer with status 200, the error
    with status 400, the page of [Http404], and an exception that left
    the view. *)
Inductive JsonResponse : Type :=
| Answered (correct : bool) (correct_answer : string) (level : Z) (example : string)
| InvalidRequest
| NotFound
| Failed (e : failure).

(** The integers a column of the database holds: 64 bits with the
    sign.  Binding any other integer to a statement raises
    [OverflowError]. *)
Definition int_max : Z := 2 ^ 63 - 1.

Definition in_column (n : Z) : bool := (- 2 ^ 63 <=? n) && (n <=? int_max).

(** Whether [save()] can write the row: the statement binds the key and
    the five integer fields; the timestamps are written as text. *)
Definition storable (self : UserProgress) : bool :=
  in_column (id self) && in_column (user self) && in_column (word self) &&
  in_column (mastery_level self) && in_column (correct_count self) &&
  in_column (incorrect_count self).

Definition storable_session (s : StudySession) : bool :=
  in_column (session_id s) && in_column (session_user s) &&
  in_column (words_practiced s) && in_column (correct_answers s).

(** The whole call [progress.update_progress(is_correct)]: the body,
    and then its last statement [self.save()], which raises
    [OverflowError] on an object that cannot be written; the object
    keeps the fields the body has set, and nothing is written. *)
Definition update_progress_call (self : UserProgress) (is_correct : bool)
    (t1 t2 : datetime) : UserProgress * result unit :=
  match update_progress self is_correct t1 t2 with
  | (self', Return _) =>
      (self', if storable self' then Return tt else Raise OverflowError)
  | (self', Raise e) => (self', Raise e)
  end.

(** A run of whole calls for one row, each with its save; the run stops
    at the first call that raises. *)
Fixpoint answer_calls (self : UserProgress)
    (answers : list (bool * datetime * datetime)) : UserProgress * result unit :=
  match answers with
  | [] => (self, Return tt)
  | (is_correct, t1, t2) :: rest =>
      match update_progress_call self is_correct t1 t2 with
      | (self', Return _) => answer_calls self' rest
      | (self', Raise e) => (self', Raise e)
      end
  end.

(** The tables with the last key the [UserProgress] table gave out. *)
Record Store : Type := mkStore {
  tables : Database;
  UserProgress_seq : Z
}.

(** [objects.get(...)] on the rows that pass the filter. *)
Definition objects_get {A : Type} (f : A -> bool) (rows : list A) : A + failure :=
  match filter f rows with
  | [] => inr DoesNotExist
  | [a] => inl a
  | _ :: _ :: _ => inr MultipleObjectsReturned
  end.

(** The filter [id=v] for a field of a request: a missing field asks
    for a null key, which no row has, and a field that is not a number
    raises. *)
Definition id_filter `{PyStr} {A : Type} (key : A -> Z) (v : option string)
    : (A -> bool) + failure :=
  match v with
  | None => inl (fun _ => false)
  | Some s =>
      match int_of_str s with
      | Some k => inl (fun a => key a =? k)
      | None => inr NotANumber
      end
  end.

(** [get_object_or_404(Word, id=word_id)]. *)
Definition get_word_or_404 `{PyStr} (db : Database) (v : option string)
    : Word + JsonResponse :=
  match id_filter word_id v with
  | inr e => inr (Failed e)
  | inl f =>
      match objects_get f (Word_objects db) with
      | inl w => inl w
      | inr DoesNotExist => inr NotFound
      | inr e => inr (Failed e)
      end
  end.

(** The largest key of the rows. *)
Definition max_id (rows : list UserProgress) : Z :=
  fold_right Z.max 0 (map id rows).

(** [UserProgress.objects.get_or_create(user=..., word=...)]; a new row
    takes the next key that was never used, and [c1] and [c2] are the
    clock reads of its two defaults.  The insert raises when the user
    or the word is no integer of a column, and the database fails when
    the keys of the table are used up. *)
Definition get_or_create (st : Store) (u w : Z) (c1 c2 : datetime)
    : (UserProgress * Store) + failure :=
  let db := tables st in
  match objects_get (fun p => (user p =? u) && (word p =? w))
          (UserProgress_objects db) with
  | inl p => inl (p, st)
  | inr DoesNotExist =>
      let p := fresh (Z.max (UserProgress_seq st) (max_id (UserProgress_objects db)) + 1)
                 u w c1 c2 in
      if negb (in_column u && in_column w) then inr (Raised OverflowError)
      else if negb (in_column (id p)) then inr OperationalError
      else
        inl (p, mkStore
                  (mkDatabase (Word_objects db) (UserProgress_objects db ++ [p])
                     (StudySession_objects db) (StudySession_seq db))
                  (id p))
  | inr e => inr e
  end.

(** [save()] of a row with a key: the rows with that key are replaced,
    and the row is added when there is none. *)
Definition save_row {A : Type} (key : A -> Z) (a : A) (rows : list A) : list A :=
  if existsb (fun r => key r =? key a) rows
  then map (fun r => if key r =? key a then a else r) rows
  else rows ++ [a].

(** The write of [save()] for a progress row and for a session that
    the columns hold; whether they do is checked where [save()] is
    called. *)
Definition save_progress (st : Store) (p : UserProgress) : Store :=
  let db := tables st in
  mkStore
    (mkDatabase (Word_objects db) (save_row id p (UserProgress_objects db))
       (StudySession_objects db) (StudySession_seq db))
    (UserProgress_seq st).

Definition save_session (st : Store) (s : StudySession) : Store :=
  let db := tables st in
  mkStore
    (mkDatabase (Word_objects db) (UserProgress_objects db)
       (save_row session_id s (StudySession_objects db)) (StudySession_seq db))
    (UserProgress_seq st).

(** The session after [words_practiced += 1] and, for a correct answer,
    [correct_answers += 1]. *)
Definition count_answer (s : StudySession) (is_correct : bool) : StudySession :=
  mkStudySession (session_id s) (session_user s) (start_time s) (end_time s)
    (words_practiced s + 1)
    (if is_correct then correct_answers s + 1 else correct_answers s).

(** The view [check_answer] for the logged-in user [u].  [c1] and [c2]
    are the clock reads of a new row and [t1] and [t2] those of the
    update.  Each statement is committed on its own, so what was
    written before an exception stays written. *)
Definition check_answer `{PyStr} (st : Store) (u : Z) (request : Request)
    (c1 c2 t1 t2 : datetime) : JsonResponse * Store :=
  if String.eqb (method request) "POST" then
    let user_answer :=
      str_lower (str_strip (match POST_answer request with
                            | Some s => s
                            | None => EmptyString
                            end)) in
    match get_word_or_404 (tables st) (POST_word_id request) with
    | inr r => (r, st)
    | inl w =>
        let is_correct := String.eqb user_answer (str_lower (translation w)) in
        match get_or_create st u (word_id w) c1 c2 with
        | inr e => (Failed e, st)
        | inl (progress, st) =>
            match update_progress_call progress is_correct t1 t2 with
            | (_, Raise e) => (Failed (Raised e), st)
            | (progress, Return _) =>
                let st := save_progress st progress in
                match id_filter session_id (POST_session_id request) with
                | inr e => (Failed e, st)
                | inl f =>
                    match objects_get f (StudySession_objects (tables st)) with
                    | inr e => (Failed e, st)
                    | inl session =>
                        let session := count_answer session is_correct in
                        if storable_session session then
                          (Answered is_correct (translation w)
                             (mastery_level progress) (example_sentence w),
                           save_session st session)
                        else (Failed (Raised OverflowError), st)
                    end
                end
            end
        end
    end
  else (InvalidRequest, st).

(** [user_answer == word.translation.lower()] of [check_answer]. *)
Definition is_correct_answer `{PyStr} (request : Request) (w : Word) : bool :=
  String.eqb
    (str_lower (str_strip (match POST_answer request with
                           | Some s => s
                           | None => EmptyString
                           end)))
    (str_lower (translation w)).

(** The string methods on the strings of the scenarios below, which are
    in lower case, have no space at their ends, and hold a key in
    decimal digits only: there [lower] and [strip] change nothing and
    [int] reads the digits. *)
Fixpoint digits (s : string) (acc : Z) : option Z :=
  match s with
  | EmptyString => Some acc
  | String c s' =>
      let n := Z.of_N (N_of_ascii c) - 48 in
      if (0 <=? n) && (n <=? 9) then digits s' (10 * acc + n) else None
  end.

Definition scenario_str : PyStr := {|
  str_lower := fun s => s;
  str_strip := fun s => s;
  int_of_str := fun s => match s with EmptyString => None | _ => digits s 0 end
|}.

(** The key of the word that an element of the list [words] of
    [practice] stands for. *)
Definition entry_word (e : entry) : Z :=
  match e with
  | Progress p => word p
  | Obj w _ => word_id w
  end.

(** *** The constraints of the tables *)

(** The keys of each table are unique, a user has one progress row per
    word ([unique_together]), and no session has a key above the last
    one given out. *)
Definition constraints (db : Database) : Prop :=
  NoDup (map word_id (Word_objects db)) /\
  NoDup (map id (UserProgress_objects db)) /\
  NoDup (map (fun p => (user p, word p)) (UserProgress_objects db)) /\
  NoDup (map session_id (StudySession_objects db)) /\
  Forall (fun s => session_id s <= StudySession_seq db) (StudySession_objects db).

(** What the views keep of the numbers: levels within 0 and 5,
    counters that are not negative, and sessions with no more correct
    answers than answers. *)
Definition sound_counts (db : Database) : Prop :=
  Forall (fun p => 0 <= mastery_level p <= 5 /\
                   0 <= correct_count p /\ 0 <= incorrect_count p)
    (UserProgress_objects db) /\
  Forall (fun s => 0 <= correct_answers s <= words_practiced s)
    (StudySession_objects db).

(** What every table of the database satisfies: the integers of its
    rows are integers of a column. *)
Definition in_columns (db : Database) : Prop :=
  Forall (fun w => in_column (word_id w) = true) (Word_objects db) /\
  Forall (fun p => storable p = true) (UserProgress_objects db) /\
  Forall (fun s => storable_session s = true) (StudySession_objects db).

(** There is room to record an answer of user [u] for word [w]: the
    user is the key of a row, a new progress row can get a key, and the
    counters of the user's row for the word, if there is one, are below
    the largest integer of a column. *)
Definition room_for_answer (st : Store) (u w : Z) : Prop :=
  in_column u = true /\
  Z.max (UserProgress_seq st) (max_id (UserProgress_objects (tables st))) < int_max /\
  forall q, In q (UserProgress_objects (tables st)) ->
            user q = u -> word q = w ->
            correct_count q < int_max /\ incorrect_count q < int_max.

(** *** A scenario *)

(** Two words, a row of user 7 for the first word, and a session of
    that user; the user answers the second word correctly. *)
Definition scenario_store : Store :=
  mkStore
    (mkDatabase
       [mkWord 1 1 "gato" "cat" EmptyString EmptyString "beginner" 0;
        mkWord 2 1 "perro" "dog" EmptyString EmptyString "beginner" 0]
       [mkUserProgress 1 7 1 2 3 1 40 50]
       [mkStudySession 1 7 30 None 2 1]
       1)
    1.

Definition scenario_request : Request :=
  mkRequest "POST" (Some "2"%string) (Some "dog"%string) (Some "1"%string).

(** ** Facts about [update_progress] *)

(** Splits a level known to lie in [0,5] into its six values. *)
Ltac by_levels m :=
  let H := fresh "Hlevel" in
  assert (H : m = 0 \/ m = 1 \/ m = 2 \/ m = 3 \/ m = 4 \/ m = 5) by lia;
  destruct H as [H | [H | [H | [H | [H | H]]]]]; rewrite H in *; clear H.

(** The lookup in the table returns for the indices -6 to 5 and raises
    for all others. *)
Lemma getitem_intervals (i : Z) :
  (-6 <= i <= 5 /\ exists d, getitem intervals i = Return d /\ 1 <= d /\
     (0 <= i -> nth_error intervals (Z.to_nat i) = Some d) /\ (1 <= i -> 3 <= d))
  \/ ((i < -6 \/ 5 < i) /\ getitem intervals i = Raise IndexError).
Proof.
  destruct (Z_lt_le_dec i (-6)) as [Hlow | Hlow].
  - right. split; [lia |].
    unfold getitem. change (len intervals) with 6.
    replace (i <? 0) with true by (symmetry; apply Z.ltb_lt; lia).
    replace (i + 6 <? 0) with true by (symmetry; apply Z.ltb_lt; lia).
    reflexivity.
  - destruct (Z_lt_le_dec 5 i) as [Hhigh | Hhigh].
    + right. split; [lia |].
      unfold getitem. change (len intervals) with 6.
      replace (i <? 0) with false by (symmetry; apply Z.ltb_ge; lia).
      replace (6 <=? i) with true by (symmetry; apply Z.leb_le; lia).
      rewrite orb_true_r. reflexivity.
    + left. split; [lia |].
      destruct (Z_lt_le_dec i 0) as [Hneg | Hpos].
      * assert (H : i = -6 \/ i = -5 \/ i = -4 \/ i = -3 \/ i = -2 \/ i = -1) by lia.
        destruct H as [H | [H | [H | [H | [H | H]]]]]; subst i;
          eexists; (split; [reflexivity | split; [lia | split; intro; lia]]).
      * by_levels i;
          eexists; (split; [reflexivity | split; [lia | split; intro; [reflexivity | lia]]]).
Qed.

(** On a level in [0,5] the call returns, and this is the object it
    leaves. *)
Lemma update_progress_in_range (self : UserProgress) (is_correct : bool)
    (t1 t2 : datetime) :
  0 <= mastery_level self <= 5 ->
  exists days,
    (if is_correct
     then nth_error intervals (Z.to_nat (Z.min 5 (mastery_level self + 1))) = Some days
          /\ 3 <= days
     else days = 1) /\
    update_progress self is_correct t1 t2 =
      (mkUserProgress (id self) (user self) (word self)
         (if is_correct then Z.min 5 (mastery_level self + 1)
          else Z.max 0 (mastery_level self - 1))
         (if is_correct then correct_count self + 1 else correct_count self)
         (if is_correct then incorrect_count self else incorrect_count self + 1)
         t1 (t2 + timedelta_days days),
       Return tt).
Proof.
  intros Hrange. destruct self as [i u w m c n lr nr]. cbn [mastery_level] in Hrange.
  destruct is_correct; unfold update_progress; cbn.
  - destruct (getitem_intervals (Z.min 5 (m + 1)))
      as [[_ [d [Hget [_ [Hnth Hthree]]]]] | [Hout _]]; [| lia].
    exists d. rewrite Hget.
    split; [split; [apply Hnth | apply Hthree]; lia | reflexivity].
  - exists 1. split; reflexivity.
Qed.

(** The level an update leaves for any input, and when the call raises. *)
Lemma update_progress_level (self : UserProgress) (is_correct : bool)
    (t1 t2 : datetime) :
  mastery_level (fst (update_progress self is_correct t1 t2)) =
    (if is_correct then Z.min 5 (mastery_level self + 1)
     else Z.max 0 (mastery_level self - 1)) /\
  (snd (update_progress self is_correct t1 t2) = Return tt \/
   snd (update_progress self is_correct t1 t2) = Raise IndexError) /\
  (snd (update_progress self is_correct t1 t2) = Raise IndexError <->
   is_correct = true /\ mastery_level self < -7).
Proof.
  destruct self as [i u w m c n lr nr].
  destruct is_correct; unfold update_progress; cbn.
  - destruct (getitem_intervals (Z.min 5 (m + 1)))
      as [[Hin [d [Hget _]]] | [Hout Hget]]; rewrite Hget; cbn.
    + split; [reflexivity | split; [left; reflexivity |]].
      split; [discriminate | intros [_ H]; lia].
    + split; [reflexivity | split; [right; reflexivity |]].
      split; [intros _; split; [reflexivity | lia] | reflexivity].
  - split; [reflexivity | split; [left; reflexivity |]].
    split; [discriminate | intros [H _]; discriminate].
Qed.

(** The counters an update leaves for any input, also when it raises. *)
Lemma update_progress_counts (self : UserProgress) (is_correct : bool)
    (t1 t2 : datetime) :
  correct_count (fst (update_progress self is_correct t1 t2)) =
    (if is_correct then correct_count self + 1 else correct_count self) /\
  incorrect_count (fst (update_progress self is_correct t1 t2)) =
    (if is_correct then incorrect_count self else incorrect_count self + 1).
Proof.
  destruct self as [i u w m c n lr nr].
  destruct is_correct; unfold update_progress; cbn.
  - destruct (getitem intervals (Z.min 5 (m + 1))); cbn; split; reflexivity.
  - split; reflexivity.
Qed.

(** C1: on a level in [0,5] the update returns; a correct answer adds
    one to [correct_count], moves the level to [min(5, level + 1)] and
    takes the number of days from the table [1, 3, 7, 14, 30, 60] at
    the new level (level 0 gives level 1 and 3 days, level 5 stays 5
    with 60 days); a wrong answer adds one to [incorrect_count], moves
    the level to [max(0, level - 1)] and takes 1 day; [last_reviewed]
    is the clock and [next_review] is the clock plus the days. *)
Theorem update_progress_algorithm (self : UserProgress) (is_correct : bool)
    (t1 t2 : datetime) :
  0 <= mastery_level self <= 5 ->
  exists self',
    update_progress self is_correct t1 t2 = (self', Return tt) /\
    last_reviewed self' = t1 /\
    (is_correct = true ->
       correct_count self' = correct_count self + 1 /\
       incorrect_count self' = incorrect_count self /\
       mastery_level self' = Z.min 5 (mastery_level self + 1) /\
       (exists days,
          nth_error [1; 3; 7; 14; 30; 60] (Z.to_nat (mastery_level self')) = Some days /\
          next_review self' = t2 + timedelta_days days) /\
       (mastery_level self = 0 ->
          mastery_level self' = 1 /\ next_review self' = t2 + timedelta_days 3) /\
       (mastery_level self = 5 ->
          mastery_level self' = 5 /\ next_review self' = t2 + timedelta_days 60)) /\
    (is_correct = false ->
       incorrect_count self' = incorrect_count self + 1 /\
       correct_count self' = correct_count self /\
       mastery_level self' = Z.max 0 (mastery_level self - 1) /\
       next_review self' = t2 + timedelta_days 1).
Proof.
  intros Hrange.
  destruct (update_progress_in_range self is_correct t1 t2 Hrange)
    as [days [Hdays Heq]].
  eexists. split; [exact Heq |]. cbn.
  split; [reflexivity |]. split; intros Hb; subst is_correct.
  - destruct Hdays as [Hnth _].
    repeat (split; [reflexivity |]). split; [| split].
    + exists days. split; [exact Hnth | reflexivity].
    + intros H0. rewrite H0 in Hnth. cbn in Hnth.
      injection Hnth as <-. rewrite H0. split; reflexivity.
    + intros H5. rewrite H5 in Hnth. cbn in Hnth.
      injection Hnth as <-. rewrite H5. split; reflexivity.
  - subst days. repeat split.
Qed.

Lemma update_progress_algorithm_witness :
  0 <= mastery_level (fresh 1 1 1 0 0) <= 5 /\
  exists self',
    update_progress (fresh 1 1 1 0 0) true 7 7 = (self', Return tt) /\
    mastery_level self' = 1 /\ next_review self' = 7 + timedelta_days 3.
Proof.
  split; [cbn; lia |].
  destruct (update_progress_algorithm (fresh 1 1 1 0 0) true 7 7)
    as [self' [Heq [_ [Hcorrect _]]]]; [cbn; lia |].
  exists self'. split; [exact Heq |].
  destruct (Hcorrect eq_refl) as [_ [_ [_ [_ [Hzero _]]]]].
  exact (Hzero eq_refl).
Defined.

(** C2: on a level in [0,5] the update returns an object whose level is
    in [0,5], whatever the answer and the clock. *)
Theorem update_progress_level_in_range (self : UserProgress) (is_correct : bool)
    (t1 t2 : datetime) :
  0 <= mastery_level self <= 5 ->
  exists self',
    update_progress self is_correct t1 t2 = (self', Return tt) /\
    0 <= mastery_level self' <= 5.
Proof.
  intros Hrange.
  destruct (update_progress_in_range self is_correct t1 t2 Hrange)
    as [days [_ Heq]].
  eexists. split; [exact Heq |]. cbn.
  destruct is_correct; lia.
Qed.

Lemma update_progress_level_in_range_witness :
  0 <= mastery_level (fresh 1 1 1 0 0) <= 5 /\
  exists self',
    update_progress (fresh 1 1 1 0 0) false 7 7 = (self', Return tt) /\
    0 <= mastery_level self' <= 5.
Proof.
  split; [cbn; lia |].
  apply (update_progress_level_in_range (fresh 1 1 1 0 0) false 7 7).
  cbn; lia.
Defined.

(** C3, as stated, fails: a wrong answer on level 7 returns, and the
    level it leaves is 6. *)
Lemma update_progress_level_not_clamped :
  let self := mkUserProgress 1 1 1 7 0 0 0 0 in
  update_progress self false 10 10 =
    (mkUserProgress 1 1 1 6 0 1 10 (10 + timedelta_days 1), Return tt) /\
  mastery_level (fst (update_progress self false 10 10)) = 6 /\
  ~ (0 <= mastery_level (fst (update_progress self false 10 10)) <= 5).
Proof.
  cbn. split; [reflexivity |]. split; [reflexivity |]. lia.
Qed.

(** C3, amended: for every input each branch clamps on one side only.
    A correct answer leaves the level [min(5, level + 1)], which is at
    most 5; a wrong answer leaves [max(0, level - 1)], which is at
    least 0.  The level left is in [0,5] exactly when the level given
    was at least -1 for a correct answer and at most 6 for a wrong
    one. *)
Theorem update_progress_one_sided_clamp (self : UserProgress) (is_correct : bool)
    (t1 t2 : datetime) :
  let self' := fst (update_progress self is_correct t1 t2) in
  (if is_correct
   then mastery_level self' = Z.min 5 (mastery_level self + 1) /\ mastery_level self' <= 5
   else mastery_level self' = Z.max 0 (mastery_level self - 1) /\ 0 <= mastery_level self') /\
  (0 <= mastery_level self' <= 5 <->
   if is_correct then -1 <= mastery_level self else mastery_level self <= 6).
Proof.
  intros self'. subst self'.
  destruct (update_progress_level self is_correct t1 t2) as [Hlvl _].
  rewrite Hlvl. split.
  - destruct is_correct; split; try reflexivity; lia.
  - destruct is_correct; lia.
Qed.

(** C5: on a level in [0,5], with a clock that does not run backwards
    between its two reads, the update returns an object whose
    [next_review] is later than its [last_reviewed]. *)
Theorem update_progress_next_after_last (self : UserProgress) (is_correct : bool)
    (t1 t2 : datetime) :
  0 <= mastery_level self <= 5 ->
  t1 <= t2 ->
  exists self',
    update_progress self is_correct t1 t2 = (self', Return tt) /\
    last_reviewed self' < next_review self' /\
    last_reviewed self' + timedelta_days 1 <= next_review self'.
Proof.
  intros Hrange Hclock.
  destruct (update_progress_in_range self is_correct t1 t2 Hrange)
    as [days [Hdays Heq]].
  eexists. split; [exact Heq |]. cbn.
  assert (Hone : 1 <= days) by (destruct is_correct; lia).
  unfold timedelta_days. lia.
Qed.

Lemma update_progress_next_after_last_witness :
  0 <= mastery_level (fresh 1 1 1 0 0) <= 5 /\ 7 <= 7 /\
  exists self',
    update_progress (fresh 1 1 1 0 0) false 7 7 = (self', Return tt) /\
    last_reviewed self' < next_review self' /\
    last_reviewed self' + timedelta_days 1 <= next_review self'.
Proof.
  split; [cbn; lia |]. split; [lia |].
  apply (update_progress_next_after_last (fresh 1 1 1 0 0) false 7 7); cbn; lia.
Defined.

(** C6: on a level in [0,5] a correct answer never lowers the level and
    a wrong answer never raises it. *)
Theorem update_progress_level_monotone (self : UserProgress) (t1 t2 : datetime) :
  0 <= mastery_level self <= 5 ->
  exists up down,
    update_progress self true t1 t2 = (up, Return tt) /\
    update_progress self false t1 t2 = (down, Return tt) /\
    mastery_level self <= mastery_level up /\
    mastery_level down <= mastery_level self.
Proof.
  intros Hrange.
  destruct (update_progress_in_range self true t1 t2 Hrange) as [d1 [_ Hup]].
  destruct (update_progress_in_range self false t1 t2 Hrange) as [d2 [_ Hdown]].
  do 2 eexists. split; [exact Hup |]. split; [exact Hdown |].
  cbn. lia.
Qed.

Lemma update_progress_level_monotone_witness :
  0 <= mastery_level (mkUserProgress 1 1 1 5 8 3 0 0) <= 5 /\
  exists up down,
    update_progress (mkUserProgress 1 1 1 5 8 3 0 0) true 7 7 = (up, Return tt) /\
    update_progress (mkUserProgress 1 1 1 5 8 3 0 0) false 7 7 = (down, Return tt) /\
    mastery_level (mkUserProgress 1 1 1 5 8 3 0 0) <= mastery_level up /\
    mastery_level down <= mastery_level (mkUserProgress 1 1 1 5 8 3 0 0).
Proof.
  split; [cbn; lia |].
  apply (update_progress_level_monotone (mkUserProgress 1 1 1 5 8 3 0 0) 7 7).
  cbn; lia.
Defined.

(** C7: a correct answer is not idempotent.  On a level in [0,5] a
    second correct answer returns an object that differs from the one
    the first answer returned: [correct_count] has grown again, and the
    level has grown again unless it was at its cap of 5. *)
Theorem update_progress_correct_not_idempotent (self : UserProgress)
    (t1 t2 t3 t4 : datetime) :
  0 <= mastery_level self <= 5 ->
  exists once twice,
    update_progress self true t1 t2 = (once, Return tt) /\
    update_progress once true t3 t4 = (twice, Return tt) /\
    twice <> once /\
    correct_count twice = correct_count once + 1 /\
    mastery_level twice = Z.min 5 (mastery_level once + 1) /\
    (mastery_level once < 5 -> mastery_level once < mastery_level twice).
Proof.
  intros Hrange.
  destruct (update_progress_in_range self true t1 t2 Hrange) as [d1 [_ Hone]].
  set (once := fst (update_progress self true t1 t2)).
  assert (Hrange1 : 0 <= mastery_level once <= 5)
    by (subst once; rewrite Hone; cbn; lia).
  destruct (update_progress_in_range once true t3 t4 Hrange1) as [d2 [_ Htwo]].
  exists once. eexists.
  split; [subst once; rewrite Hone; reflexivity |]. split; [exact Htwo |].
  cbn. split; [| split; [reflexivity | split; [reflexivity | lia]]].
  intros Heq. apply (f_equal correct_count) in Heq. cbn in Heq. lia.
Qed.

Lemma update_progress_correct_not_idempotent_witness :
  0 <= mastery_level (fresh 1 1 1 0 0) <= 5 /\
  exists once twice,
    update_progress (fresh 1 1 1 0 0) true 7 7 = (once, Return tt) /\
    update_progress once true 7 7 = (twice, Return tt) /\
    twice <> once.
Proof.
  split; [cbn; lia |].
  destruct (update_progress_correct_not_idempotent (fresh 1 1 1 0 0) 7 7 7 7)
    as [once [twice [H1 [H2 [Hneq _]]]]]; [cbn; lia |].
  exists once, twice. split; [exact H1 |]. split; [exact H2 | exact Hneq].
Defined.

(** C10: on a level in [0,5] a correct answer returns a level of at
    least 1 and a [next_review] at least 3 days after the clock, so an
    update that schedules the review 1 day after the clock was a wrong
    answer. *)
Theorem update_progress_correct_at_least_three_days (self : UserProgress)
    (t1 t2 : datetime) :
  0 <= mastery_level self <= 5 ->
  (exists self',
     update_progress self true t1 t2 = (self', Return tt) /\
     1 <= mastery_level self' /\
     t2 + timedelta_days 3 <= next_review self') /\
  (forall is_correct self',
     update_progress self is_correct t1 t2 = (self', Return tt) ->
     next_review self' = t2 + timedelta_days 1 ->
     is_correct = false).
Proof.
  intros Hrange. split.
  - destruct (update_progress_in_range self true t1 t2 Hrange)
      as [days [[_ Hthree] Heq]].
    eexists. split; [exact Heq |]. cbn.
    unfold timedelta_days. lia.
  - intros [|] self' Heq Hnext; [| reflexivity].
    destruct (update_progress_in_range self true t1 t2 Hrange)
      as [days [[_ Hthree] Heq']].
    rewrite Heq' in Heq. injection Heq as <-. cbn in Hnext.
    unfold timedelta_days in Hnext. lia.
Qed.

Lemma update_progress_correct_at_least_three_days_witness :
  0 <= mastery_level (fresh 1 1 1 0 0) <= 5 /\
  exists self',
    update_progress (fresh 1 1 1 0 0) true 7 7 = (self', Return tt) /\
    1 <= mastery_level self' /\
    7 + timedelta_days 3 <= next_review self'.
Proof.
  split; [cbn; lia |].
  apply (update_progress_correct_at_least_three_days (fresh 1 1 1 0 0) 7 7).
  cbn; lia.
Defined.

(** ** Runs of answers *)

Lemma count_answers_cons (b is_correct : bool) (t1 t2 : datetime)
    (rest : list (bool * datetime * datetime)) :
  count_answers b ((is_correct, t1, t2) :: rest) =
    (if Bool.eqb is_correct b then 1 else 0) + count_answers b rest.
Proof.
  unfold count_answers, len. cbn [filter fst].
  destruct (Bool.eqb is_correct b); cbn [List.length]; lia.
Qed.

Lemma count_answers_nonneg (b : bool) (answers : list (bool * datetime * datetime)) :
  0 <= count_answers b answers.
Proof. unfold count_answers, len. lia. Qed.

(** A run that starts on a level in [0,5] returns: no update of it
    raises, the level stays in [0,5], and each counter has grown by the
    number of answers of its kind. *)
Lemma answer_all_in_range (answers : list (bool * datetime * datetime)) :
  forall self : UserProgress,
    0 <= mastery_level self <= 5 ->
    exists self',
      answer_all self answers = (self', Return tt) /\
      0 <= mastery_level self' <= 5 /\
      correct_count self' = correct_count self + count_answers true answers /\
      incorrect_count self' = incorrect_count self + count_answers false answers.
Proof.
  induction answers as [| [[is_correct t1] t2] rest IH]; intros self Hrange.
  - exists self. cbn. repeat split; try lia.
  - destruct (update_progress_in_range self is_correct t1 t2 Hrange)
      as [days [_ Heq]].
    cbn [answer_all]. rewrite Heq.
    match goal with |- context [answer_all ?s rest] => destruct (IH s) as [self' [Hrun [Hr [Hc Hi]]]] end.
    + cbn. destruct is_correct; lia.
    + exists self'. split; [exact Hrun |]. split; [exact Hr |].
      rewrite Hc, Hi, !count_answers_cons. cbn [correct_count incorrect_count].
      destruct is_correct; cbn [Bool.eqb]; lia.
Qed.

(** A run of two parts is the run of the second part on what the first
    part returned. *)
Lemma answer_all_app (answers more : list (bool * datetime * datetime)) :
  forall self self',
    answer_all self answers = (self', Return tt) ->
    answer_all self (answers ++ more) = answer_all self' more.
Proof.
  induction answers as [| [[is_correct t1] t2] rest IH]; intros self self' Hrun.
  - cbn in Hrun. injection Hrun as <-. reflexivity.
  - cbn [answer_all app] in *.
    destruct (update_progress self is_correct t1 t2) as [s [[] | e]].
    + apply IH. exact Hrun.
    + discriminate.
Qed.

(** C9: every call of the update, for any input and also when the call
    raises, adds exactly one to one counter and leaves the other as it
    was: [correct_count] for a correct answer, [incorrect_count] for a
    wrong one.  So in any run of answers from a fresh row every update
    returns, both counters are never negative, and they never decrease
    when the run goes on. *)
Theorem update_progress_counters :
  (forall (self : UserProgress) (is_correct : bool) (t1 t2 : datetime),
     let self' := fst (update_progress self is_correct t1 t2) in
     if is_correct
     then correct_count self' = correct_count self + 1 /\
          incorrect_count self' = incorrect_count self
     else incorrect_count self' = incorrect_count self + 1 /\
          correct_count self' = correct_count self) /\
  (forall (i u w : Z) (ta tb : datetime)
          (answers more : list (bool * datetime * datetime)),
     exists now later,
       answer_all (fresh i u w ta tb) answers = (now, Return tt) /\
       answer_all (fresh i u w ta tb) (answers ++ more) = (later, Return tt) /\
       correct_count now = count_answers true answers /\
       incorrect_count now = count_answers false answers /\
       0 <= correct_count now <= correct_count later /\
       0 <= incorrect_count now <= incorrect_count later).
Proof.
  split.
  - intros self is_correct t1 t2 self'. subst self'.
    destruct (update_progress_counts self is_correct t1 t2) as [Hc Hi].
    rewrite Hc, Hi. destruct is_correct; split; reflexivity.
  - intros i u w ta tb answers more.
    destruct (answer_all_in_range answers (fresh i u w ta tb))
      as [now [Hnow [Hrange [Hc Hi]]]]; [cbn; lia |].
    destruct (answer_all_in_range more now Hrange)
      as [later [Hlater [_ [Hc' Hi']]]].
    exists now, later. split; [exact Hnow |].
    split; [rewrite (answer_all_app answers more _ _ Hnow); exact Hlater |].
    cbn in Hc, Hi.
    pose proof (count_answers_nonneg true answers).
    pose proof (count_answers_nonneg false answers).
    pose proof (count_answers_nonneg true more).
    pose proof (count_answers_nonneg false more).
    lia.
Qed.

(** ** Facts about [success_rate] *)

(** Without answers the rate is 0 and no division is made. *)
Lemma success_rate_no_answers (self : UserProgress) :
  correct_count self + incorrect_count self = 0 ->
  success_rate self = Return 0.
Proof.
  intros Hzero. unfold success_rate. rewrite Hzero. reflexivity.
Qed.

(** Three correct answers of four give 75, two of three give 66. *)
Lemma success_rate_examples (i u w m : Z) (t1 t2 : datetime) :
  success_rate (mkUserProgress i u w m 3 1 t1 t2) = Return 75 /\
  success_rate (mkUserProgress i u w m 2 1 t1 t2) = Return 66 /\
  success_rate (mkUserProgress i u w m 0 0 t1 t2) = Return 0.
Proof. repeat split. Qed.

(** The two float operations of the rate for 29 correct answers of 100:
    the quotient is the float below 0.29 and the product is the float
    below 29. *)
Lemma success_rate_29_of_100_floats :
  int_truediv 29 100 = Return (S754_finite false 5224175567749775 (-54)) /\
  float_mul_int (S754_finite false 5224175567749775 (-54)) 100 =
    Return (S754_finite false 8162774324609023 (-48)) /\
  8162774324609023 < 29 * 2 ^ 48 /\
  int_of_float (S754_finite false 8162774324609023 (-48)) = Return 28.
Proof. repeat split. Qed.

(** With both counters up to 100 the code and the specification differ
    on five pairs, and there the code returns one less. *)
Lemma success_rate_differs_up_to_100 :
  filter rate_differs (counters_below 101) =
    [(29, 21); (29, 71); (57, 43); (58, 42); (87, 63)] /\
  forall c i, In (c, i) (filter rate_differs (counters_below 101)) ->
    success_rate (mkUserProgress 0 0 0 0 c i 0 0) =
      Return (success_rate_spec (mkUserProgress 0 0 0 0 c i 0 0) - 1).
Proof.
  assert (H : filter rate_differs (counters_below 101) =
              [(29, 21); (29, 71); (57, 43); (58, 42); (87, 63)])
    by (vm_compute; reflexivity).
  split; [exact H |].
  intros c i Hin. rewrite H in Hin. cbn [In] in Hin.
  repeat (destruct Hin as [Hin | Hin]; [injection Hin as <- <-; reflexivity |]).
  contradiction.
Qed.

(** C4: for 29 correct and 71 wrong answers the code returns 28, and
    the floor of [100 * 29 / (29 + 71)] is 29. *)
Theorem success_rate_29_of_100 (i u w m : Z) (t1 t2 : datetime) :
  success_rate (mkUserProgress i u w m 29 71 t1 t2) = Return 28 /\
  success_rate_spec (mkUserProgress i u w m 29 71 t1 t2) = 29.
Proof. split; reflexivity. Qed.

(** ** Facts about [order_by] *)

Section OrderByFacts.

Context {A : Type}.
Variable leb : A -> A -> bool.

Let le (x y : A) : Prop := leb x y = true.

Lemma insert_perm (x : A) (l : list A) :
  Permutation (x :: l) (insert leb x l).
Proof.
  induction l as [| y l IH]; cbn [insert].
  - apply Permutation_refl.
  - destruct (leb x y).
    + apply Permutation_refl.
    + eapply perm_trans; [apply perm_swap |].
      apply perm_skip. exact IH.
Qed.

Lemma order_by_perm (l : list A) : Permutation l (order_by leb l).
Proof.
  induction l as [| x l IH]; cbn [order_by fold_right].
  - apply perm_nil.
  - eapply perm_trans; [apply perm_skip; exact IH |].
    apply insert_perm.
Qed.

Lemma order_by_In (l : list A) (x : A) : In x (order_by leb l) <-> In x l.
Proof.
  split; apply Permutation_in;
    [apply Permutation_sym |]; apply order_by_perm.
Qed.

Lemma order_by_length (l : list A) :
  List.length (order_by leb l) = List.length l.
Proof. symmetry. apply Permutation_length, order_by_perm. Qed.

Hypothesis leb_total : forall x y, leb x y = false -> leb y x = true.

Lemma insert_hd (x z : A) (l : list A) :
  le z x -> HdRel le z l -> HdRel le z (insert leb x l).
Proof.
  intros Hzx Hhd. destruct l as [| y l]; cbn [insert].
  - constructor. exact Hzx.
  - destruct (leb x y); constructor.
    + exact Hzx.
    + inversion Hhd; assumption.
Qed.

Lemma insert_sorted (x : A) (l : list A) :
  Sorted le l -> Sorted le (insert leb x l).
Proof.
  induction 1 as [| y l Hsorted IH Hhd]; cbn [insert].
  - repeat constructor.
  - destruct (leb x y) eqn:Hxy.
    + constructor; [constructor; assumption | constructor; exact Hxy].
    + constructor; [exact IH |].
      apply insert_hd; [apply leb_total; exact Hxy | exact Hhd].
Qed.

Lemma order_by_sorted (l : list A) : Sorted le (order_by leb l).
Proof.
  induction l as [| x l IH]; cbn [order_by fold_right].
  - constructor.
  - apply insert_sorted. exact IH.
Qed.

End OrderByFacts.

(** The rows a query ordered by [next_review] returns ascend, each row
    being at most every later one. *)
Lemma order_by_next_review (l : list UserProgress) :
  StronglySorted (fun p q => next_review p <= next_review q)
    (order_by UserProgress_ordering l).
Proof.
  apply Sorted_StronglySorted.
  - intros p q r Hpq Hqr. lia.
  - pose proof (order_by_sorted UserProgress_ordering) as Hsorted.
    assert (Htotal : forall x y, UserProgress_ordering x y = false ->
                                 UserProgress_ordering y x = true).
    { unfold UserProgress_ordering. intros x y H.
      apply Z.leb_gt in H. apply Z.leb_le. lia. }
    specialize (Hsorted Htotal l).
    induction Hsorted as [| p l' Hs IH Hhd]; constructor.
    + exact IH.
    + destruct Hhd as [| q l'' Hpq]; constructor.
      apply Z.leb_le. exact Hpq.
Qed.

(** A word that passes [exclude(id__in=learned_word_ids)] has no
    progress row of the user. *)
Lemma not_learned_no_progress (db : Database) (u : Z) (w : Word) :
  not_learned db u w = true <->
  forall p, In p (UserProgress_objects db) -> user p = u -> word p <> word_id w.
Proof.
  unfold not_learned, learned_word_ids. rewrite negb_true_iff. split.
  - intros Hnone p Hin Huser Hword.
    assert (Hsome : existsb (Z.eqb (word_id w))
              (map word (filter (fun p => user p =? u) (UserProgress_objects db))) = true).
    { apply existsb_exists. exists (word p). split.
      - apply in_map, filter_In. split; [exact Hin | apply Z.eqb_eq; exact Huser].
      - apply Z.eqb_eq. symmetry. exact Hword. }
    congruence.
  - intros Hall.
    destruct (existsb _ _) eqn:Hex; [| reflexivity].
    apply existsb_exists in Hex. destruct Hex as [k [Hin Heq]].
    apply in_map_iff in Hin. destruct Hin as [p [Hk Hp]].
    apply filter_In in Hp. destruct Hp as [Hp Huser].
    apply Z.eqb_eq in Huser, Heq.
    exfalso. apply (Hall p Hp Huser). congruence.
Qed.

(** ** The words of a practice session *)

(** The rows that [exclude(id__in=learned_word_ids)] drops are the
    words for which the table holds a row of the user. *)
Lemma not_learned_rows (db : Database) (u : Z) (w : Word) :
  not_learned db u w =
    negb (existsb (fun p => (user p =? u) && (word p =? word_id w))
            (UserProgress_objects db)).
Proof.
  unfold not_learned, learned_word_ids. f_equal.
  induction (UserProgress_objects db) as [| r rows IH]; [reflexivity |].
  cbn [filter existsb]. destruct (user r =? u); cbn [map existsb andb].
  - rewrite IH, (Z.eqb_sym (word_id w)). reflexivity.
  - exact IH.
Qed.

(** C8: the list of [practice] is [A ++ B].  [A] holds the first 10 of
    the user's progress rows with [next_review <= now] in ascending
    order of [next_review]: together with the due rows [rest] left out
    it holds every row of the table that is of the user and due, each
    as often as the table, every row of it is at most every row after
    it, and rows are left out only when [A] is full.  [B] holds words
    without a progress row of the user, as many as the [10 - |A|] free
    places and the words of that kind allow, and none when [A] is full.
    The list has at most 10 elements, and it is empty for an empty
    database.  The page rendered shows that list, or is the page
    without words when the list is empty. *)
Theorem practice_words_selection (db : Database) (u : Z) (now start : datetime) :
  exists (A rest : list UserProgress) (B : list Word),
    practice_words db u now = map Progress A ++ map (fun w => Obj w 0) B /\
    Permutation (A ++ rest)
      (filter (fun p => (user p =? u) && (next_review p <=? now))
         (UserProgress_objects db)) /\
    (forall p, In p (UserProgress_objects db) -> user p = u -> next_review p <= now ->
               In p (A ++ rest)) /\
    StronglySorted (fun p q => next_review p <= next_review q) (A ++ rest) /\
    (forall p, In p A ->
       In p (UserProgress_objects db) /\ user p = u /\ next_review p <= now) /\
    (List.length A <= 10)%nat /\
    ((List.length A < 10)%nat -> rest = []) /\
    (forall w, In w B ->
       In w (Word_objects db) /\
       forall p, In p (UserProgress_objects db) -> user p = u -> word p <> word_id w) /\
    List.length B =
      Nat.min (10 - List.length A)
        (List.length
           (filter (fun w => negb (existsb (fun p => (user p =? u) && (word p =? word_id w))
                                     (UserProgress_objects db)))
              (Word_objects db))) /\
    ((10 <= List.length A)%nat -> B = []) /\
    (List.length (practice_words db u now) <= 10)%nat /\
    practice_words (mkDatabase [] [] [] 0) u now = [] /\
    fst (practice db u now start) =
      match A, B with
      | [], [] => NoWords
      | _, _ => PracticePage (map inl A ++ map inr B) (StudySession_seq db + 1)
      end.
Proof.
  set (due := filter (is_due u now) (UserProgress_objects db)).
  set (sorted := order_by UserProgress_ordering due).
  set (A := firstn 10 sorted).
  set (B := new_words db u (10 - len A)).
  assert (Hwords : practice_words db u now = map Progress A ++ map (fun w => Obj w 0) B)
    by reflexivity.
  assert (Hdue : due = filter (fun p => (user p =? u) && (next_review p <=? now))
                         (UserProgress_objects db)) by reflexivity.
  assert (HlenA : (List.length A <= 10)%nat) by apply firstn_le_length.
  assert (Hslice : Z.to_nat (10 - len A) = (10 - List.length A)%nat)
    by (unfold len; lia).
  assert (HlenB : List.length B =
            Nat.min (10 - List.length A)
              (List.length
                 (filter (fun w => negb (existsb
                                           (fun p => (user p =? u) && (word p =? word_id w))
                                           (UserProgress_objects db)))
                    (Word_objects db)))).
  { unfold B, new_words, slice_to.
    rewrite length_firstn, order_by_length, Hslice.
    rewrite (filter_ext _ _ (not_learned_rows db u)). reflexivity. }
  exists A, (skipn 10 sorted), B.
  split; [exact Hwords |].
  unfold A at 1 2 3. rewrite firstn_skipn.
  split; [rewrite <- Hdue; apply Permutation_sym, order_by_perm |].
  split.
  { intros p Hp Hu Hnext. apply (order_by_In UserProgress_ordering).
    rewrite Hdue. apply filter_In. split; [exact Hp |].
    apply andb_true_iff. split; [apply Z.eqb_eq | apply Z.leb_le]; assumption. }
  split; [apply order_by_next_review |].
  split.
  { intros p Hin.
    assert (Hp : In p due).
    { apply (order_by_In UserProgress_ordering).
      fold sorted. rewrite <- (firstn_skipn 10 sorted).
      apply in_or_app. left. exact Hin. }
    apply filter_In in Hp. destruct Hp as [Hrow Hp].
    unfold is_due in Hp. apply andb_true_iff in Hp.
    destruct Hp as [Huser Hnext].
    split; [exact Hrow |]. split; [apply Z.eqb_eq | apply Z.leb_le]; assumption. }
  split; [exact HlenA |].
  split.
  { intros Hshort. apply skipn_all2.
    unfold A in Hshort. rewrite length_firstn in Hshort. lia. }
  split.
  { intros w Hin. unfold B, new_words, slice_to in Hin.
    assert (Hsel : In w (filter (not_learned db u) (Word_objects db))).
    { apply (order_by_In Word_ordering).
      rewrite <- (firstn_skipn (Z.to_nat (10 - len A))).
      apply in_or_app. left. exact Hin. }
    apply filter_In in Hsel. destruct Hsel as [Hrow Hnew].
    split; [exact Hrow |]. apply not_learned_no_progress. exact Hnew. }
  split; [exact HlenB |].
  split.
  { intros Hfull. apply length_zero_iff_nil. rewrite HlenB. lia. }
  split.
  { rewrite Hwords, length_app, !length_map, HlenB. lia. }
  split; [reflexivity |].
  unfold practice. rewrite Hwords.
  destruct A as [| p A']; [destruct B as [| w B'] |]; cbn [map app];
    try reflexivity.
  - cbn [create_session fst session_id context_word].
    rewrite map_map. reflexivity.
  - cbn [create_session fst session_id context_word].
    rewrite map_app, !map_map. reflexivity.
Qed.

(** ** Scenarios *)

(** A fresh row answered correctly, wrongly and correctly again: level
    1, a review in 3 days, two correct answers of three, a rate of 66. *)
Example three_answers :
  let run := answer_all (fresh 1 1 1 0 0)
               [(true, 10, 10); (false, 20, 20); (true, 30, 30)] in
  snd run = Return tt /\
  mastery_level (fst run) = 1 /\
  correct_count (fst run) = 2 /\
  incorrect_count (fst run) = 1 /\
  last_reviewed (fst run) = 30 /\
  next_review (fst run) = 30 + timedelta_days 3 /\
  success_rate (fst run) = Return 66.
Proof. repeat split. Qed.

(** A wrong answer on level 0 stays on level 0 with a review in 1 day,
    and a correct answer on a level below -7 raises after the counter
    and the level of the object have changed. *)
Example floor_and_raise :
  update_progress (fresh 1 1 1 0 0) false 10 10 =
    (mkUserProgress 1 1 1 0 0 1 10 (10 + timedelta_days 1), Return tt) /\
  update_progress (mkUserProgress 1 1 1 (-8) 0 0 0 0) true 10 10 =
    (mkUserProgress 1 1 1 (-7) 1 0 0 0, Raise IndexError) /\
  update_progress (mkUserProgress 1 1 1 (-3) 0 0 0 0) true 10 10 =
    (mkUserProgress 1 1 1 (-2) 1 0 10 (10 + timedelta_days 30), Return tt).
Proof. repeat split. Qed.

(** Two due rows of user 7 come first, the earlier one in front; the
    row that is not due yet is left out, and of the three words only
    the one the user has no row for is added. *)
Example practice_of_user_7 :
  let w1 := mkWord 1 1 "hola" "hello" EmptyString EmptyString "beginner" 0 in
  let w2 := mkWord 2 1 "gato" "cat" EmptyString EmptyString "beginner" 0 in
  let w3 := mkWord 3 1 "perro" "dog" EmptyString EmptyString "advanced" 0 in
  let w4 := mkWord 4 1 "casa" "house" EmptyString EmptyString "beginner" 0 in
  let p1 := mkUserProgress 1 7 1 2 3 1 40 50 in
  let p2 := mkUserProgress 2 7 2 1 1 1 10 20 in
  let p3 := mkUserProgress 3 8 3 1 1 0 10 20 in
  let p4 := mkUserProgress 4 7 4 1 1 0 55 90 in
  let db := mkDatabase [w1; w2; w3; w4] [p1; p2; p3; p4] [] 0 in
  practice db 7 60 61 =
    (PracticePage [inl p2; inl p1; inr w3] 1,
     mkDatabase [w1; w2; w3; w4] [p1; p2; p3; p4]
       [mkStudySession 1 7 61 None 0 0] 1).
Proof. reflexivity. Qed.

(** ** The rates over a range of counters *)

Lemma In_counters_below (n : nat) (c i : Z) :
  0 <= c < Z.of_nat n -> 0 <= i < Z.of_nat n -> In (c, i) (counters_below n).
Proof.
  intros Hc Hi. unfold counters_below. apply in_flat_map.
  exists (Z.to_nat c). split; [apply in_seq; lia |].
  apply in_map_iff. exists (Z.to_nat i).
  split; [f_equal; lia | apply in_seq; lia].
Qed.

(** The rate depends on the two counters only. *)
Lemma success_rate_counters (self : UserProgress) :
  success_rate self =
    success_rate (mkUserProgress 0 0 0 0 (correct_count self) (incorrect_count self) 0 0).
Proof. destruct self. reflexivity. Qed.

(** The accuracy of a session is the success rate of a row with the
    same correct answers and the same number of answers. *)
Lemma accuracy_success_rate (self : StudySession) :
  accuracy self =
    success_rate (mkUserProgress 0 0 0 0 (correct_answers self)
                    (words_practiced self - correct_answers self) 0 0).
Proof.
  unfold accuracy, success_rate. cbn [correct_count incorrect_count].
  replace (correct_answers self + (words_practiced self - correct_answers self))
    with (words_practiced self) by lia.
  reflexivity.
Qed.

Lemma rate_close_up_to_200 : forallb rate_close (counters_below 201) = true.
Proof. vm_compute. reflexivity. Qed.

Lemma rate_exact_below_50 :
  forallb (fun ci => (50 <=? fst ci + snd ci) || rate_exact ci) (counters_below 50) = true.
Proof. vm_compute. reflexivity. Qed.

Lemma rate_exact_all_correct :
  forallb (fun c => rate_exact (Z.of_nat c, 0)) (seq 0 201) = true.
Proof. vm_compute. reflexivity. Qed.

(** For counters that are not negative the rate of the specification
    is the floor of the percentage. *)
Lemma success_rate_spec_floor (self : UserProgress) :
  0 <= correct_count self -> 0 <= incorrect_count self ->
  success_rate_spec self =
    percent_floor (correct_count self) (correct_count self + incorrect_count self).
Proof.
  intros Hc Hi. unfold success_rate_spec, percent_floor.
  destruct (correct_count self =? 0) eqn:Ec; cbn [andb]; [| reflexivity].
  destruct (incorrect_count self =? 0) eqn:Ei; [| reflexivity].
  apply Z.eqb_eq in Ec, Ei. rewrite Ec, Ei. reflexivity.
Qed.

(** The rate for counters between 0 and 200, and for fewer than 50
    answers. *)
Lemma rate_close_spec (c i : Z) :
  0 <= c <= 200 -> 0 <= i <= 200 ->
  exists r,
    success_rate (mkUserProgress 0 0 0 0 c i 0 0) = Return r /\
    percent_floor c (c + i) - 1 <= r <= percent_floor c (c + i) /\
    0 <= r <= 100.
Proof.
  intros Hc Hi.
  assert (Hin : In (c, i) (counters_below 201)) by (apply In_counters_below; lia).
  apply (proj1 (forallb_forall _ _) rate_close_up_to_200) in Hin.
  unfold rate_close in Hin. cbn [fst snd] in Hin.
  destruct (success_rate _) as [r | e]; [| discriminate].
  exists r. split; [reflexivity |].
  rewrite !andb_true_iff, !Z.leb_le in Hin. lia.
Qed.

Lemma rate_exact_spec (c i : Z) :
  0 <= c -> 0 <= i -> c + i < 50 ->
  success_rate (mkUserProgress 0 0 0 0 c i 0 0) = Return (percent_floor c (c + i)).
Proof.
  intros Hc Hi Hsum.
  assert (Hin : In (c, i) (counters_below 50)) by (apply In_counters_below; lia).
  apply (proj1 (forallb_forall _ _) rate_exact_below_50) in Hin.
  cbn [fst snd] in Hin.
  replace (50 <=? c + i) with false in Hin by (symmetry; apply Z.leb_gt; lia).
  cbn [orb] in Hin. unfold rate_exact in Hin. cbn [fst snd] in Hin.
  destruct (success_rate _) as [r | e]; [| discriminate].
  apply Z.eqb_eq in Hin. rewrite Hin. reflexivity.
Qed.

(** X1: with both counters between 0 and 200 the success rate returns;
    it is the floor of the percentage of correct answers or one less,
    and it lies between 0 and 100. *)
Theorem success_rate_within_one (self : UserProgress) :
  0 <= correct_count self <= 200 ->
  0 <= incorrect_count self <= 200 ->
  exists r,
    success_rate self = Return r /\
    success_rate_spec self - 1 <= r <= success_rate_spec self /\
    0 <= r <= 100.
Proof.
  intros Hc Hi.
  rewrite success_rate_counters, success_rate_spec_floor by lia.
  apply rate_close_spec; assumption.
Qed.

Lemma success_rate_within_one_witness :
  0 <= correct_count (mkUserProgress 1 1 1 3 58 42 0 0) <= 200 /\
  0 <= incorrect_count (mkUserProgress 1 1 1 3 58 42 0 0) <= 200 /\
  exists r,
    success_rate (mkUserProgress 1 1 1 3 58 42 0 0) = Return r /\
    success_rate_spec (mkUserProgress 1 1 1 3 58 42 0 0) - 1 <= r
      <= success_rate_spec (mkUserProgress 1 1 1 3 58 42 0 0) /\
    0 <= r <= 100.
Proof.
  split; [cbn; lia |]. split; [cbn; lia |].
  apply (success_rate_within_one (mkUserProgress 1 1 1 3 58 42 0 0)); cbn; lia.
Defined.

(** X2: with fewer than 50 answers in all the success rate is the
    floor of the percentage of correct answers. *)
Theorem success_rate_exact_below_50 (self : UserProgress) :
  0 <= correct_count self ->
  0 <= incorrect_count self ->
  correct_count self + incorrect_count self < 50 ->
  success_rate self = Return (success_rate_spec self).
Proof.
  intros Hc Hi Hsum.
  rewrite success_rate_counters, success_rate_spec_floor by lia.
  apply rate_exact_spec; assumption.
Qed.

Lemma success_rate_exact_below_50_witness :
  0 <= correct_count (mkUserProgress 1 1 1 3 7 5 0 0) /\
  0 <= incorrect_count (mkUserProgress 1 1 1 3 7 5 0 0) /\
  correct_count (mkUserProgress 1 1 1 3 7 5 0 0)
    + incorrect_count (mkUserProgress 1 1 1 3 7 5 0 0) < 50 /\
  success_rate (mkUserProgress 1 1 1 3 7 5 0 0) =
    Return (success_rate_spec (mkUserProgress 1 1 1 3 7 5 0 0)).
Proof.
  split; [cbn; lia |]. split; [cbn; lia |]. split; [cbn; lia |].
  apply (success_rate_exact_below_50 (mkUserProgress 1 1 1 3 7 5 0 0)); cbn; lia.
Defined.

(** X3: the accuracy of a session with at most 200 answers, of which
    none to all are correct, returns and lies between 0 and 100; it is
    the floor of the percentage of correct answers or one less, it is
    that floor when the session has fewer than 50 answers, and it is
    100 when all answers of the session are correct. *)
Theorem accuracy_within_one (self : StudySession) :
  0 <= correct_answers self <= words_practiced self ->
  words_practiced self <= 200 ->
  exists r,
    accuracy self = Return r /\
    0 <= r <= 100 /\
    percent_floor (correct_answers self) (words_practiced self) - 1 <= r
      <= percent_floor (correct_answers self) (words_practiced self) /\
    (words_practiced self < 50 ->
     r = percent_floor (correct_answers self) (words_practiced self)) /\
    (0 < words_practiced self -> correct_answers self = words_practiced self ->
     r = 100).
Proof.
  intros Hc Hw. rewrite accuracy_success_rate.
  set (c := correct_answers self) in *. set (w := words_practiced self) in *.
  destruct (rate_close_spec c (w - c)) as [r [Hr [Hone Hrange]]]; [lia | lia |].
  replace (c + (w - c)) with w in Hone by lia.
  exists r. split; [exact Hr |]. split; [exact Hrange |].
  split; [exact Hone |]. split.
  - intros Hsmall. rewrite rate_exact_spec in Hr by lia.
    injection Hr as <-. f_equal. lia.
  - intros Hpos Hall.
    assert (Hin : In (Z.to_nat w) (seq 0 201)) by (apply in_seq; lia).
    apply (proj1 (forallb_forall _ _) rate_exact_all_correct) in Hin.
    unfold rate_exact in Hin. cbn [fst snd] in Hin.
    rewrite Z2Nat.id in Hin by lia.
    rewrite Hall in Hr. replace (w - w) with 0 in Hr by lia.
    rewrite Hr in Hin. apply Z.eqb_eq in Hin. rewrite Hin.
    unfold percent_floor. replace (w + 0) with w by lia.
    apply Z.div_mul. lia.
Qed.

Lemma accuracy_within_one_witness :
  0 <= correct_answers (mkStudySession 1 1 0 None 10 7)
    <= words_practiced (mkStudySession 1 1 0 None 10 7) /\
  words_practiced (mkStudySession 1 1 0 None 10 7) <= 200 /\
  exists r,
    accuracy (mkStudySession 1 1 0 None 10 7) = Return r /\ 0 <= r <= 100.
Proof.
  split; [cbn; lia |]. split; [cbn; lia |].
  destruct (accuracy_within_one (mkStudySession 1 1 0 None 10 7))
    as [r [Hr [Hrange _]]]; [cbn; lia | cbn; lia |].
  exists r. split; [exact Hr | exact Hrange].
Defined.

(** ** More about updates and runs *)

(** The key, the user and the word of the object after an update. *)
Lemma update_progress_key (self : UserProgress) (is_correct : bool)
    (t1 t2 : datetime) :
  id (fst (update_progress self is_correct t1 t2)) = id self /\
  user (fst (update_progress self is_correct t1 t2)) = user self /\
  word (fst (update_progress self is_correct t1 t2)) = word self.
Proof.
  destruct self as [i u w m c n lr nr].
  destruct is_correct; unfold update_progress; cbn;
    [destruct (getitem intervals (Z.min 5 (m + 1))) |]; repeat split.
Qed.

(** The whole call leaves the object of the body; it returns when the
    body returns and the object can be written, and raises
    [OverflowError] when the body returns and it cannot. *)
Lemma update_progress_call_spec (self : UserProgress) (is_correct : bool)
    (t1 t2 : datetime) :
  fst (update_progress_call self is_correct t1 t2) =
    fst (update_progress self is_correct t1 t2) /\
  snd (update_progress_call self is_correct t1 t2) =
    match snd (update_progress self is_correct t1 t2) with
    | Return _ =>
        if storable (fst (update_progress self is_correct t1 t2))
        then Return tt else Raise OverflowError
    | Raise e => Raise e
    end.
Proof.
  unfold update_progress_call.
  destruct (update_progress self is_correct t1 t2) as [self' [[] | e]];
    split; reflexivity.
Qed.

(** X4: a call of [update_progress], with its save, never touches the
    key, the user or the word of the row, whatever the input.  It
    returns or raises [IndexError] or [OverflowError]: with
    [IndexError] the two timestamps of the object are still the old
    ones, and with [OverflowError], which comes from the save, the
    object already has the clock as [last_reviewed]. *)
Theorem update_progress_call_keeps_row (self : UserProgress) (is_correct : bool)
    (t1 t2 : datetime) :
  let self' := fst (update_progress_call self is_correct t1 t2) in
  let outcome := snd (update_progress_call self is_correct t1 t2) in
  id self' = id self /\ user self' = user self /\ word self' = word self /\
  (outcome = Return tt \/ outcome = Raise IndexError \/ outcome = Raise OverflowError) /\
  (outcome = Raise IndexError ->
   last_reviewed self' = last_reviewed self /\ next_review self' = next_review self) /\
  (outcome = Raise OverflowError -> last_reviewed self' = t1).
Proof.
  cbv zeta.
  destruct (update_progress_call_spec self is_correct t1 t2) as [Hfst Hsnd].
  rewrite Hfst, Hsnd. clear Hfst Hsnd.
  destruct (update_progress_key self is_correct t1 t2) as [Hid [Hu Hw]].
  split; [exact Hid |]. split; [exact Hu |]. split; [exact Hw |].
  destruct self as [i u w m c n lr nr].
  destruct is_correct; unfold update_progress; cbn.
  - destruct (getitem_intervals (Z.min 5 (m + 1)))
      as [[_ [d [Hget _]]] | [_ Hget]]; rewrite Hget; cbn.
    + match goal with |- context [if ?b then _ else _] => destruct b end;
        (split; [auto |]); split; try discriminate; reflexivity.
    + split; [auto |]. split; [intros _; split; reflexivity | discriminate].
  - match goal with |- context [if ?b then _ else _] => destruct b end;
      (split; [auto |]); split; try discriminate; reflexivity.
Qed.

Lemma len_cons {A : Type} (a : A) (l : list A) : len (a :: l) = 1 + len l.
Proof. unfold len. cbn [List.length]. lia. Qed.

(** A row that can be written, on a level in [0,5] and with counters
    below the largest integer of a column, can be written after its
    update. *)
Lemma update_progress_storable (self : UserProgress) (is_correct : bool)
    (t1 t2 : datetime) :
  0 <= mastery_level self <= 5 ->
  storable self = true ->
  (if is_correct then correct_count self < int_max
   else incorrect_count self < int_max) ->
  update_progress_call self is_correct t1 t2 =
    (fst (update_progress self is_correct t1 t2), Return tt) /\
  storable (fst (update_progress self is_correct t1 t2)) = true.
Proof.
  intros Hrange Hstore Hroom.
  destruct (update_progress_in_range self is_correct t1 t2 Hrange)
    as [days [_ Heq]].
  assert (Hnew : storable (fst (update_progress self is_correct t1 t2)) = true).
  { rewrite Heq. cbn [fst]. unfold storable, in_column, int_max in *.
    cbn [id user word mastery_level correct_count incorrect_count].
    rewrite !andb_true_iff, !Z.leb_le in *.
    destruct is_correct; lia. }
  split; [| exact Hnew].
  unfold update_progress_call. rewrite Heq in *. cbn [fst] in Hnew.
  rewrite Hnew. reflexivity.
Qed.

(** X5: a run of calls, each with its save, on a row that can be
    written, with a level in [0,5] and with counters that stay
    integers of a column when the answers of the run are added, never
    raises.  It moves the level by at most one per answer: the run ends
    no lower than the level minus the wrong answers and no higher than
    the level plus the correct ones.  A run of correct answers only
    ends on [min(5, level + n)] and a run of wrong answers only on
    [max(0, level - n)], [n] being the length of the run. *)
Theorem answer_calls_streak (answers : list (bool * datetime * datetime)) :
  forall self : UserProgress,
    0 <= mastery_level self <= 5 ->
    storable self = true ->
    correct_count self + count_answers true answers <= int_max ->
    incorrect_count self + count_answers false answers <= int_max ->
    exists self',
      answer_calls self answers = (self', Return tt) /\
      mastery_level self - count_answers false answers <= mastery_level self'
        <= mastery_level self + count_answers true answers /\
      (count_answers false answers = 0 ->
       mastery_level self' = Z.min 5 (mastery_level self + len answers)) /\
      (count_answers true answers = 0 ->
       mastery_level self' = Z.max 0 (mastery_level self - len answers)).
Proof.
  induction answers as [| [[is_correct t1] t2] rest IH];
    intros self Hrange Hstore Hc Hi.
  - exists self. cbn. repeat split; try lia.
  - pose proof (count_answers_nonneg true rest) as Ht.
    pose proof (count_answers_nonneg false rest) as Hf.
    rewrite !count_answers_cons in Hc, Hi.
    destruct (update_progress_storable self is_correct t1 t2 Hrange Hstore)
      as [Hcall Hnew].
    { destruct is_correct; cbn [Bool.eqb] in Hc, Hi; lia. }
    destruct (update_progress_in_range self is_correct t1 t2 Hrange)
      as [days [_ Heq]].
    cbn [answer_calls]. rewrite Hcall. rewrite Heq in *. cbn [fst] in *.
    match goal with
    | |- context [answer_calls ?s rest] =>
        destruct (IH s) as [self' [Hrun [Hbound [Hup Hdown]]]]
    end.
    + cbn. destruct is_correct; lia.
    + exact Hnew.
    + cbn [correct_count]. destruct is_correct; cbn [Bool.eqb] in Hc; lia.
    + cbn [incorrect_count]. destruct is_correct; cbn [Bool.eqb] in Hi; lia.
    + exists self'. split; [exact Hrun |].
      rewrite !count_answers_cons, len_cons.
      cbn [mastery_level] in Hbound, Hup, Hdown.
      destruct is_correct; cbn [Bool.eqb]; (split; [lia |]); split; intros Hz;
        lia.
Qed.

Lemma answer_calls_streak_witness :
  0 <= mastery_level (fresh 1 1 1 0 0) <= 5 /\
  storable (fresh 1 1 1 0 0) = true /\
  correct_count (fresh 1 1 1 0 0) + 6 <= int_max /\
  incorrect_count (fresh 1 1 1 0 0) + 0 <= int_max /\
  exists self',
    answer_calls (fresh 1 1 1 0 0)
      [(true, 1, 1); (true, 2, 2); (true, 3, 3); (true, 4, 4); (true, 5, 5); (true, 6, 6)]
      = (self', Return tt) /\
    mastery_level self' = 5.
Proof.
  split; [cbn; lia |]. split; [reflexivity |].
  split; [vm_compute; discriminate |]. split; [vm_compute; discriminate |].
  destruct (answer_calls_streak
              [(true, 1, 1); (true, 2, 2); (true, 3, 3); (true, 4, 4); (true, 5, 5); (true, 6, 6)]
              (fresh 1 1 1 0 0))
    as [self' [Hrun [_ [Hup _]]]];
    [cbn; lia | reflexivity | vm_compute; discriminate | vm_compute; discriminate |].
  exists self'. split; [exact Hrun |].
  rewrite Hup by reflexivity. reflexivity.
Defined.

(** ** Rows with keys *)

Section Rows.

Context {A K : Type}.
Variable key : A -> K.

Lemma NoDup_map_inj (rows : list A) (a b : A) :
  NoDup (map key rows) -> In a rows -> In b rows -> key a = key b -> a = b.
Proof.
  induction rows as [| r rows IH]; intros Hnd Ha Hb Hkey; [contradiction |].
  cbn [map] in Hnd. apply NoDup_cons_iff in Hnd. destruct Hnd as [Hnot Hnd].
  destruct Ha as [-> | Ha], Hb as [-> | Hb].
  - reflexivity.
  - exfalso. apply Hnot. rewrite Hkey. apply in_map. exact Hb.
  - exfalso. apply Hnot. rewrite <- Hkey. apply in_map. exact Ha.
  - apply IH; assumption.
Qed.

Lemma filter_none (f : A -> bool) (rows : list A) :
  filter f rows = [] <-> forall r, In r rows -> f r = false.
Proof.
  induction rows as [| r rows IH]; cbn [filter].
  - split; [intros _ r [] | reflexivity].
  - destruct (f r) eqn:Hf; split.
    + discriminate.
    + intros H. specialize (H r (or_introl eq_refl)). congruence.
    + intros H x [<- | Hx]; [exact Hf | apply IH; assumption].
    + intros H. apply IH. intros x Hx. apply H. right. exact Hx.
Qed.

(** A filter that only rows with the key of [a] pass selects [a] alone
    from rows with unique keys. *)
Lemma filter_unique (f : A -> bool) (rows : list A) (a : A) :
  NoDup (map key rows) -> In a rows -> f a = true ->
  (forall r, In r rows -> f r = true -> key r = key a) ->
  filter f rows = [a].
Proof.
  induction rows as [| r rows IH]; intros Hnd Ha Hfa Hkey; [contradiction |].
  cbn [map] in Hnd. apply NoDup_cons_iff in Hnd. destruct Hnd as [Hnot Hnd].
  cbn [filter]. destruct Ha as [-> | Ha].
  - rewrite Hfa. f_equal. apply filter_none. intros x Hx.
    destruct (f x) eqn:Hfx; [| reflexivity].
    exfalso. apply Hnot. rewrite <- (Hkey x (or_intror Hx) Hfx).
    apply in_map. exact Hx.
  - destruct (f r) eqn:Hfr.
    + exfalso. apply Hnot. rewrite (Hkey r (or_introl eq_refl) Hfr).
      apply in_map. exact Ha.
    + apply IH; try assumption.
      intros x Hx. apply Hkey. right. exact Hx.
Qed.

End Rows.

Lemma objects_get_inl {A : Type} (f : A -> bool) (rows : list A) (a : A) :
  objects_get f rows = inl a <-> filter f rows = [a].
Proof.
  unfold objects_get. destruct (filter f rows) as [| x [| y l]]; split;
    intros H; try discriminate; congruence.
Qed.

Lemma objects_get_In {A : Type} (f : A -> bool) (rows : list A) (a : A) :
  objects_get f rows = inl a -> In a rows /\ f a = true.
Proof.
  intros H. apply objects_get_inl in H. apply filter_In.
  rewrite H. left. reflexivity.
Qed.

Lemma objects_get_missing {A : Type} (f : A -> bool) (rows : list A) :
  objects_get f rows = inr DoesNotExist <-> forall r, In r rows -> f r = false.
Proof.
  rewrite <- (filter_none f rows). unfold objects_get.
  destruct (filter f rows) as [| x [| y l]]; split; intros H;
    try discriminate; reflexivity.
Qed.

(** ** Saving a row *)

Section SaveRow.

Context {A : Type}.
Variable key : A -> Z.

Lemma save_row_In (a : A) (rows : list A) (x : A) :
  In x (save_row key a rows) <-> x = a \/ (In x rows /\ key x <> key a).
Proof.
  unfold save_row. destruct (existsb _ rows) eqn:Hex.
  - apply existsb_exists in Hex. destruct Hex as [r [Hr Hkey]].
    rewrite in_map_iff. split.
    + intros [y [Hy Hin]]. destruct (key y =? key a) eqn:E.
      * left. symmetry. exact Hy.
      * right. subst x. split; [exact Hin | apply Z.eqb_neq; exact E].
    + intros [-> | [Hin Hne]].
      * exists r. rewrite Hkey. split; [reflexivity | exact Hr].
      * exists x. apply Z.eqb_neq in Hne. rewrite Hne.
        split; [reflexivity | exact Hin].
  - rewrite in_app_iff. cbn [In]. split.
    + intros [Hin | [<- | []]]; [right | left; reflexivity].
      split; [exact Hin |].
      intros Hkey. apply Z.eqb_eq in Hkey.
      assert (Htrue : existsb (fun r => key r =? key a) rows = true)
        by (apply existsb_exists; exists x; split; assumption).
      congruence.
    + intros [-> | [Hin _]]; [right; left; reflexivity | left; exact Hin].
Qed.

(** A projection that the new row shares with the row it replaces is
    left as it was in the whole table. *)
Lemma save_row_map {B : Type} (g : A -> B) (a a0 : A) (rows : list A) :
  NoDup (map key rows) -> In a0 rows -> key a = key a0 -> g a = g a0 ->
  map g (save_row key a rows) = map g rows.
Proof.
  intros Hnd Hin Hkey Hg. unfold save_row.
  replace (existsb (fun r => key r =? key a) rows) with true.
  2:{ symmetry. apply existsb_exists. exists a0.
      split; [exact Hin | apply Z.eqb_eq; congruence]. }
  rewrite map_map. apply map_ext_in. intros r Hr.
  destruct (key r =? key a) eqn:E; [| reflexivity].
  apply Z.eqb_eq in E.
  assert (r = a0) by (apply (NoDup_map_inj key rows); congruence).
  congruence.
Qed.

Lemma save_row_Forall (P : A -> Prop) (a : A) (rows : list A) :
  Forall P rows -> P a -> Forall P (save_row key a rows).
Proof.
  intros Hall Ha. apply Forall_forall. intros x Hx.
  apply save_row_In in Hx. destruct Hx as [-> | [Hx _]]; [exact Ha |].
  rewrite Forall_forall in Hall. apply Hall. exact Hx.
Qed.

End SaveRow.

(** ** The steps of [check_answer] *)

Lemma NoDup_map_filter {A K : Type} (key : A -> K) (f : A -> bool) (rows : list A) :
  NoDup (map key rows) -> NoDup (map key (filter f rows)).
Proof.
  induction rows as [| r rows IH]; intros Hnd; [exact Hnd |].
  cbn [map] in Hnd. apply NoDup_cons_iff in Hnd. destruct Hnd as [Hnot Hnd].
  cbn [filter]. destruct (f r); [| apply IH; exact Hnd].
  cbn [map]. apply NoDup_cons; [| apply IH; exact Hnd].
  intros Hin. apply Hnot. apply in_map_iff in Hin.
  destruct Hin as [x [Hx Hin]]. apply filter_In in Hin.
  rewrite <- Hx. apply in_map. apply Hin.
Qed.

(** On rows with unique keys a lookup by key finds one row or none. *)
Lemma objects_get_by_key {A K : Type} (key : A -> K) (k : K) (f : A -> bool)
    (rows : list A) :
  NoDup (map key rows) ->
  (forall r, f r = true -> key r = k) ->
  (exists a, objects_get f rows = inl a) \/ objects_get f rows = inr DoesNotExist.
Proof.
  intros Hnd Hkey. pose proof (NoDup_map_filter key f rows Hnd) as Hsel.
  unfold objects_get.
  destruct (filter f rows) as [| x [| y l]] eqn:Hf.
  - right. reflexivity.
  - left. exists x. reflexivity.
  - exfalso.
    assert (Hx : f x = true)
      by (apply (proj1 (filter_In f x rows)); rewrite Hf; left; reflexivity).
    assert (Hy : f y = true)
      by (apply (proj1 (filter_In f y rows)); rewrite Hf; right; left; reflexivity).
    cbn [map] in Hsel. apply NoDup_cons_iff in Hsel. destruct Hsel as [Hnot _].
    apply Hnot. left. rewrite (Hkey x Hx), (Hkey y Hy). reflexivity.
Qed.

Lemma max_id_ge (rows : list UserProgress) (p : UserProgress) :
  In p rows -> id p <= max_id rows.
Proof.
  unfold max_id. induction rows as [| r rows IH]; intros Hin; [contradiction |].
  cbn [map fold_right]. destruct Hin as [-> | Hin]; [lia |].
  specialize (IH Hin). lia.
Qed.

Lemma max_id_nonneg (rows : list UserProgress) : 0 <= max_id rows.
Proof.
  unfold max_id. induction rows as [| r rows IH]; cbn [map fold_right]; lia.
Qed.

Lemma NoDup_snoc {K : Type} (l : list K) (k : K) :
  NoDup l -> ~ In k l -> NoDup (l ++ [k]).
Proof.
  intros Hnd Hnot.
  apply (Permutation_NoDup (Permutation_cons_append l k)).
  apply NoDup_cons; assumption.
Qed.

(** The filter of [get_or_create] passes the rows of the user for the
    word. *)
Lemma user_word_filter (u w : Z) (p : UserProgress) :
  (user p =? u) && (word p =? w) = true <-> (user p, word p) = (u, w).
Proof.
  rewrite andb_true_iff, !Z.eqb_eq. split.
  - intros [-> ->]. reflexivity.
  - intros H. injection H as -> ->. split; reflexivity.
Qed.

Lemma in_column_spec (n : Z) :
  in_column n = true <-> - 2 ^ 63 <= n <= int_max.
Proof. unfold in_column. rewrite andb_true_iff, !Z.leb_le. reflexivity. Qed.

(** Under the constraints [get_or_create] returns a row of the user
    for the word, the one that is there or a new one with the defaults
    and a key above all keys; or there is no such row and none can be
    made, because the user or the word is no integer of a column or
    the keys are used up. *)
Lemma get_or_create_spec (st : Store) (u w : Z) (c1 c2 : datetime) :
  constraints (tables st) ->
  sound_counts (tables st) ->
  in_columns (tables st) ->
  (exists p st1,
     get_or_create st u w c1 c2 = inl (p, st1) /\
     In p (UserProgress_objects (tables st1)) /\
     user p = u /\ word p = w /\
     constraints (tables st1) /\ sound_counts (tables st1) /\
     in_columns (tables st1) /\
     Word_objects (tables st1) = Word_objects (tables st) /\
     StudySession_objects (tables st1) = StudySession_objects (tables st) /\
     StudySession_seq (tables st1) = StudySession_seq (tables st) /\
     ((In p (UserProgress_objects (tables st)) /\ st1 = st) \/
      ((forall q, In q (UserProgress_objects (tables st)) ->
          (user q, word q) <> (u, w)) /\
       p = fresh (Z.max (UserProgress_seq st)
                    (max_id (UserProgress_objects (tables st))) + 1) u w c1 c2 /\
       UserProgress_objects (tables st1) = UserProgress_objects (tables st) ++ [p]))) \/
  (exists e,
     get_or_create st u w c1 c2 = inr e /\
     (e = Raised OverflowError \/ e = OperationalError) /\
     (forall q, In q (UserProgress_objects (tables st)) -> (user q, word q) <> (u, w)) /\
     (in_column u && in_column w = false \/
      int_max <= Z.max (UserProgress_seq st) (max_id (UserProgress_objects (tables st))))).
Proof.
  intros Hcons Hsound Hcols.
  destruct Hcons as [Hwords [Hids [Hpairs [Hsids Hseq]]]].
  destruct Hsound as [Hrows Hsess].
  destruct Hcols as [Hcw [Hcp Hcs]].
  unfold get_or_create.
  destruct (objects_get_by_key (fun p => (user p, word p)) (u, w)
              (fun p => (user p =? u) && (word p =? w))
              (UserProgress_objects (tables st)) Hpairs)
    as [[p Hget] | Hget].
  - intros r. apply user_word_filter.
  - left. rewrite Hget. apply objects_get_In in Hget. destruct Hget as [Hin Hf].
    apply user_word_filter in Hf. injection Hf as Hu Hw.
    exists p, st. split; [reflexivity |].
    split; [exact Hin |]. split; [exact Hu |]. split; [exact Hw |].
    split; [repeat split; assumption |]. split; [split; assumption |].
    split; [repeat split; assumption |].
    split; [reflexivity |]. split; [reflexivity |]. split; [reflexivity |].
    left. split; [exact Hin | reflexivity].
  - rewrite Hget.
    pose proof (proj1 (objects_get_missing _ _) Hget) as Hnone.
    assert (Hfresh : forall q, In q (UserProgress_objects (tables st)) ->
                       (user q, word q) <> (u, w)).
    { intros q Hq Heq. apply user_word_filter in Heq.
      rewrite (Hnone q Hq) in Heq. discriminate. }
    set (k := Z.max (UserProgress_seq st)
                (max_id (UserProgress_objects (tables st))) + 1).
    pose proof (max_id_nonneg (UserProgress_objects (tables st))) as Hmax.
    destruct (in_column u && in_column w) eqn:Huw; cbn [negb].
    2:{ right. exists (Raised OverflowError). split; [reflexivity |].
        split; [left; reflexivity |]. split; [exact Hfresh |]. left. reflexivity. }
    cbn [fresh id].
    destruct (in_column k) eqn:Hk; cbn [negb].
    2:{ right. exists OperationalError. split; [reflexivity |].
        split; [right; reflexivity |]. split; [exact Hfresh |]. right.
        destruct (Z_lt_le_dec (k - 1) int_max) as [Hlt | Hge]; [| subst k; lia].
        exfalso. assert (Htrue : in_column k = true).
        { apply in_column_spec. subst k. unfold int_max in *. lia. }
        congruence. }
    left. set (p := fresh k u w c1 c2).
    eexists p, _. split; [reflexivity |].
    cbn [tables UserProgress_objects Word_objects StudySession_objects StudySession_seq].
    split; [apply in_or_app; right; left; reflexivity |].
    split; [reflexivity |]. split; [reflexivity |].
    apply andb_true_iff in Huw. destruct Huw as [Hu Hw].
    split; [| split; [| split; [| repeat split; try reflexivity]]].
    + unfold constraints. cbn [tables UserProgress_objects
        Word_objects StudySession_objects StudySession_seq].
      rewrite !map_app. cbn [map].
      split; [exact Hwords |]. split; [| split; [| split; assumption]].
      * apply NoDup_snoc; [exact Hids |].
        intros Hin. apply in_map_iff in Hin. destruct Hin as [q [Hq Hin]].
        apply max_id_ge in Hin. cbn [id p fresh] in Hq. subst k. lia.
      * apply NoDup_snoc; [exact Hpairs |].
        intros Hin. apply in_map_iff in Hin. destruct Hin as [q [Hq Hin]].
        apply (Hfresh q Hin). exact Hq.
    + unfold sound_counts. cbn [tables UserProgress_objects StudySession_objects].
      split; [| exact Hsess].
      apply Forall_app. split; [exact Hrows |].
      constructor; [cbn; lia | constructor].
    + unfold in_columns. cbn [tables UserProgress_objects Word_objects
        StudySession_objects].
      split; [exact Hcw |]. split; [| exact Hcs].
      apply Forall_app. split; [exact Hcp |].
      constructor; [| constructor].
      unfold storable, p, fresh.
      cbn [id user word mastery_level correct_count incorrect_count].
      rewrite Hk, Hu, Hw. reflexivity.
    + right. split; [exact Hfresh |]. split; reflexivity.
Qed.

(** With room the row is there or is made. *)
Lemma get_or_create_room (st : Store) (u w : Z) (c1 c2 : datetime) :
  constraints (tables st) ->
  sound_counts (tables st) ->
  in_columns (tables st) ->
  in_column w = true ->
  room_for_answer st u w ->
  exists p st1, get_or_create st u w c1 c2 = inl (p, st1).
Proof.
  intros Hcons Hsound Hcols Hw [Hu [Hkeys _]].
  destruct (get_or_create_spec st u w c1 c2 Hcons Hsound Hcols)
    as [[p [st1 [Hgoc _]]] | [e [_ [_ [_ [Huw | Hfull]]]]]].
  - exists p, st1. exact Hgoc.
  - rewrite Hu, Hw in Huw. discriminate.
  - lia.
Qed.

(** Saving an updated row that belongs to a row of the table. *)
Lemma save_progress_spec (st : Store) (p p' : UserProgress) :
  constraints (tables st) ->
  sound_counts (tables st) ->
  In p (UserProgress_objects (tables st)) ->
  id p' = id p -> user p' = user p -> word p' = word p ->
  0 <= mastery_level p' <= 5 /\ 0 <= correct_count p' /\ 0 <= incorrect_count p' ->
  constraints (tables (save_progress st p')) /\
  sound_counts (tables (save_progress st p')) /\
  (forall x, In x (UserProgress_objects (tables (save_progress st p'))) <->
             x = p' \/ (In x (UserProgress_objects (tables st)) /\ id x <> id p')) /\
  map id (UserProgress_objects (tables (save_progress st p'))) =
    map id (UserProgress_objects (tables st)) /\
  (in_columns (tables st) -> storable p' = true ->
   in_columns (tables (save_progress st p'))).
Proof.
  intros [Hwords [Hids [Hpairs [Hsids Hseq]]]] [Hrows Hsess] Hin Hid Hu Hw Hp'.
  unfold save_progress, constraints, sound_counts, in_columns.
  cbn [tables UserProgress_objects Word_objects StudySession_objects StudySession_seq].
  rewrite (save_row_map id id p' p) by assumption.
  rewrite (save_row_map id (fun q => (user q, word q)) p' p)
    by (try assumption; congruence).
  split; [repeat split; assumption |].
  split; [split; [apply save_row_Forall; assumption | exact Hsess] |].
  split; [intros x; apply save_row_In |].
  split; [reflexivity |].
  intros [Hcw [Hcp Hcs]] Hstore.
  split; [exact Hcw |]. split; [| exact Hcs].
  apply save_row_Forall; assumption.
Qed.

Lemma save_session_spec (st : Store) (s s' : StudySession) :
  constraints (tables st) ->
  sound_counts (tables st) ->
  In s (StudySession_objects (tables st)) ->
  session_id s' = session_id s ->
  0 <= correct_answers s' <= words_practiced s' ->
  constraints (tables (save_session st s')) /\
  sound_counts (tables (save_session st s')) /\
  (forall x, In x (StudySession_objects (tables (save_session st s'))) <->
             x = s' \/ (In x (StudySession_objects (tables st)) /\
                        session_id x <> session_id s')) /\
  map session_id (StudySession_objects (tables (save_session st s'))) =
    map session_id (StudySession_objects (tables st)) /\
  (in_columns (tables st) -> storable_session s' = true ->
   in_columns (tables (save_session st s'))).
Proof.
  intros [Hwords [Hids [Hpairs [Hsids Hseq]]]] [Hrows Hsess] Hin Hid Hs'.
  unfold save_session, constraints, sound_counts, in_columns.
  cbn [tables UserProgress_objects Word_objects StudySession_objects StudySession_seq].
  rewrite (save_row_map session_id session_id s' s) by assumption.
  split.
  { repeat split; try assumption.
    apply save_row_Forall; [exact Hseq |].
    rewrite Hid. rewrite Forall_forall in Hseq. apply Hseq. exact Hin. }
  split; [split; [exact Hrows | apply save_row_Forall; assumption] |].
  split; [intros x; apply save_row_In |].
  split; [reflexivity |].
  intros [Hcw [Hcp Hcs]] Hstore.
  split; [exact Hcw |]. split; [exact Hcp |].
  apply save_row_Forall; assumption.
Qed.

(** The word of a request is found when the field holds the key of a
    row of the word table. *)
Lemma get_word_or_404_found `{PyStr} (db : Database) (s : string) (w : Word) :
  NoDup (map word_id (Word_objects db)) ->
  In w (Word_objects db) ->
  int_of_str s = Some (word_id w) ->
  get_word_or_404 db (Some s) = inl w.
Proof.
  intros Hnd Hin Hint. unfold get_word_or_404, id_filter. rewrite Hint.
  assert (Hget : objects_get (fun a => word_id a =? word_id w) (Word_objects db) = inl w).
  { apply objects_get_inl. apply (filter_unique word_id); try assumption.
    - apply Z.eqb_refl.
    - intros r _ Hr. apply Z.eqb_eq. exact Hr. }
  rewrite Hget. reflexivity.
Qed.

Lemma get_word_or_404_inl `{PyStr} (db : Database) (v : option string) (w : Word) :
  get_word_or_404 db v = inl w ->
  In w (Word_objects db) /\
  exists s, v = Some s /\ int_of_str s = Some (word_id w).
Proof.
  unfold get_word_or_404, id_filter. intros Hget.
  destruct v as [s |].
  - destruct (int_of_str s) as [k |] eqn:Hint; [| discriminate].
    destruct (objects_get _ _) as [w' | e] eqn:Hobj.
    + injection Hget as <-. apply objects_get_In in Hobj.
      destruct Hobj as [Hin Hk]. apply Z.eqb_eq in Hk.
      split; [exact Hin |]. exists s. split; [reflexivity | congruence].
    + destruct e; discriminate.
  - destruct (objects_get _ _) as [w' | e] eqn:Hobj.
    + apply objects_get_In in Hobj. destruct Hobj as [_ Hfalse]. discriminate.
    + destruct e; discriminate.
Qed.

(** The progress rows after the row of the user for the word has been
    fetched or made and its update saved: the updated row, and the rows
    of other users and words as they were. *)
Lemma rows_after_update (st st1 : Store) (u w : Z) (c1 c2 : datetime)
    (p p' : UserProgress) :
  constraints (tables st) ->
  sound_counts (tables st) ->
  in_columns (tables st) ->
  get_or_create st u w c1 c2 = inl (p, st1) ->
  id p' = id p -> user p' = user p -> word p' = word p ->
  0 <= mastery_level p' <= 5 /\ 0 <= correct_count p' /\ 0 <= incorrect_count p' ->
  forall q, In q (UserProgress_objects (tables (save_progress st1 p'))) <->
            q = p' \/ (In q (UserProgress_objects (tables st)) /\
                       (user q, word q) <> (u, w)).
Proof.
  intros Hcons Hsound Hcols Hgoc Hid Hpu Hpw Hrow.
  destruct (get_or_create_spec st u w c1 c2 Hcons Hsound Hcols)
    as [[p0 [st0 [Hgoc0 [Hin [Hu [Hw [Hcons1 [Hsound1 [_ [_ [_ [_ Hcase]]]]]]]]]]]]
       | [e [Hfail _]]]; [| congruence].
  rewrite Hgoc in Hgoc0. injection Hgoc0 as <- <-.
  destruct (save_progress_spec st1 p p' Hcons1 Hsound1 Hin Hid Hpu Hpw Hrow)
    as [_ [_ [Hrows _]]].
  destruct Hcons1 as [_ [Hids1 [Hpairs1 _]]].
  intros q. rewrite Hrows. rewrite Hid.
  assert (Hsame : forall x, In x (UserProgress_objects (tables st1)) ->
                    (id x = id p <-> (user x, word x) = (u, w))).
  { intros x Hx. split; intros Hk.
    - assert (x = p) by (apply (NoDup_map_inj id _ x p Hids1); assumption).
      subst x. congruence.
    - assert (x = p).
      { apply (NoDup_map_inj (fun r => (user r, word r)) _ x p Hpairs1);
          try assumption. congruence. }
      subst x. reflexivity. }
  destruct Hcase as [[Hold ->] | [Hnew [_ Happ]]].
  - split; (intros [-> | [Hq Hne]]; [left; reflexivity | right]);
      (split; [exact Hq |]); intros Hk; apply Hne; apply (Hsame q Hq); exact Hk.
  - split; (intros [-> | [Hq Hne]]; [left; reflexivity | right]).
    + assert (Hq1 := Hq). rewrite Happ in Hq. apply in_app_or in Hq.
      destruct Hq as [Hq | [<- | []]]; [| contradiction Hne; reflexivity].
      split; [exact Hq | apply Hnew; exact Hq].
    + assert (Hq1 : In q (UserProgress_objects (tables st1)))
        by (rewrite Happ; apply in_or_app; left; exact Hq).
      split; [exact Hq1 |].
      intros Hk. apply Hne. apply (Hsame q Hq1). exact Hk.
Qed.

(** The view on a POST that passes the lookup of the word, under the
    constraints.  Either no row of the user for the word is there and
    none can be made, and the view fails with the tables as they were;
    or the row is fetched or made and the body of its update returns.
    Then, when the updated row cannot be written, the view fails with
    [OverflowError]; when it can, it is saved, and what is left is the
    lookup of the session and its save. *)
Lemma check_answer_path `{PyStr} (st : Store) (u : Z) (request : Request)
    (c1 c2 t1 t2 : datetime) (w : Word) :
  constraints (tables st) ->
  sound_counts (tables st) ->
  in_columns (tables st) ->
  method request = "POST"%string ->
  get_word_or_404 (tables st) (POST_word_id request) = inl w ->
  let is_correct := is_correct_answer request w in
  (exists e,
     get_or_create st u (word_id w) c1 c2 = inr e /\
     (e = Raised OverflowError \/ e = OperationalError) /\
     check_answer st u request c1 c2 t1 t2 = (Failed e, st)) \/
  (exists p st1 p',
     get_or_create st u (word_id w) c1 c2 = inl (p, st1) /\
     update_progress p is_correct t1 t2 = (p', Return tt) /\
     (In p (UserProgress_objects (tables st)) \/
      ((forall q, In q (UserProgress_objects (tables st)) ->
          (user q, word q) <> (u, word_id w)) /\
       p = fresh (Z.max (UserProgress_seq st)
                    (max_id (UserProgress_objects (tables st))) + 1)
             u (word_id w) c1 c2)) /\
     (user p = u /\ word p = word_id w /\ storable p = true /\
      0 <= mastery_level p <= 5) /\
     (0 <= mastery_level p' <= 5 /\ 0 <= correct_count p' /\ 0 <= incorrect_count p') /\
     (constraints (tables st1) /\ sound_counts (tables st1) /\
      in_columns (tables st1)) /\
     (constraints (tables (save_progress st1 p')) /\
      sound_counts (tables (save_progress st1 p')) /\
      (storable p' = true -> in_columns (tables (save_progress st1 p')))) /\
     (forall q, In q (UserProgress_objects (tables (save_progress st1 p'))) <->
                q = p' \/ (In q (UserProgress_objects (tables st)) /\
                           (user q, word q) <> (u, word_id w))) /\
     (map id (UserProgress_objects (tables (save_progress st1 p'))) =
        map id (UserProgress_objects (tables st1)) /\
      (map id (UserProgress_objects (tables st1)) =
         map id (UserProgress_objects (tables st)) \/
       exists k, map id (UserProgress_objects (tables st1)) =
                   map id (UserProgress_objects (tables st)) ++ [k])) /\
     (StudySession_objects (tables st1) = StudySession_objects (tables st) /\
      Word_objects (tables st1) = Word_objects (tables st)) /\
     check_answer st u request c1 c2 t1 t2 =
       if storable p' then
         match id_filter session_id (POST_session_id request) with
         | inr e => (Failed e, save_progress st1 p')
         | inl f =>
             match objects_get f (StudySession_objects (tables st)) with
             | inr e => (Failed e, save_progress st1 p')
             | inl session =>
                 if storable_session (count_answer session is_correct) then
                   (Answered is_correct (translation w) (mastery_level p')
                      (example_sentence w),
                    save_session (save_progress st1 p')
                      (count_answer session is_correct))
                 else (Failed (Raised OverflowError), save_progress st1 p')
             end
         end
       else (Failed (Raised OverflowError), st1)).
Proof.
  intros Hcons Hsound Hcols Hpost Hword is_correct.
  assert (Hview : forall r,
            get_or_create st u (word_id w) c1 c2 = r ->
            check_answer st u request c1 c2 t1 t2 =
              match r with
              | inr e => (Failed e, st)
              | inl (p, st1) =>
                  match update_progress_call p is_correct t1 t2 with
                  | (_, Raise e) => (Failed (Raised e), st1)
                  | (p', Return _) =>
                      match id_filter session_id (POST_session_id request) with
                      | inr e => (Failed e, save_progress st1 p')
                      | inl f =>
                          match objects_get f
                                  (StudySession_objects (tables (save_progress st1 p')))
                          with
                          | inr e => (Failed e, save_progress st1 p')
                          | inl session =>
                              if storable_session (count_answer session is_correct) then
                                (Answered is_correct (translation w) (mastery_level p')
                                   (example_sentence w),
                                 save_session (save_progress st1 p')
                                   (count_answer session is_correct))
                              else (Failed (Raised OverflowError), save_progress st1 p')
                          end
                      end
                  end
              end).
  { intros r <-. unfold check_answer. rewrite Hpost.
    cbn [String.eqb Ascii.eqb Bool.eqb]. rewrite Hword.
    fold (is_correct_answer request w). fold is_correct.
    destruct (get_or_create st u (word_id w) c1 c2) as [[p st1] | e];
      reflexivity. }
  destruct (get_or_create_spec st u (word_id w) c1 c2 Hcons Hsound Hcols)
    as [[p [st1 [Hgoc [Hin [Hu [Hw [Hcons1 [Hsound1 [Hcols1 [Hwords [Hsess [Hseq Hcase]]]]]]]]]]]]
       | [e [Hgoc [He _]]]].
  2:{ left. exists e. split; [exact Hgoc |]. split; [exact He |].
      rewrite (Hview _ Hgoc). reflexivity. }
  right.
  assert (Hrow : 0 <= mastery_level p <= 5 /\ 0 <= correct_count p /\ 0 <= incorrect_count p).
  { destruct Hsound1 as [Hrows _]. rewrite Forall_forall in Hrows.
    apply Hrows. exact Hin. }
  assert (Hstore : storable p = true).
  { destruct Hcols1 as [_ [Hcp _]]. rewrite Forall_forall in Hcp.
    apply Hcp. exact Hin. }
  destruct (update_progress_in_range p is_correct t1 t2 (proj1 Hrow))
    as [days [_ Hupd]].
  exists p, st1. eexists. split; [exact Hgoc |]. split; [exact Hupd |].
  match goal with
  | |- context [save_progress st1 ?q] => set (p' := q) in *
  end.
  assert (Hrow' : 0 <= mastery_level p' <= 5 /\ 0 <= correct_count p' /\
                  0 <= incorrect_count p')
    by (subst p'; cbn; destruct is_correct; lia).
  destruct (save_progress_spec st1 p p' Hcons1 Hsound1 Hin eq_refl eq_refl eq_refl Hrow')
    as [Hc2 [Hs2 [_ [Hids Hcols2]]]].
  pose proof (rows_after_update st st1 u (word_id w) c1 c2 p p'
                Hcons Hsound Hcols Hgoc eq_refl eq_refl eq_refl Hrow') as Hrows.
  split.
  { destruct Hcase as [[Hold _] | [Hnew [Hp _]]];
      [left; exact Hold | right; split; assumption]. }
  split; [split; [exact Hu | split; [exact Hw | split; [exact Hstore | apply Hrow]]] |].
  split; [exact Hrow' |].
  split; [split; [exact Hcons1 | split; [exact Hsound1 | exact Hcols1]] |].
  split; [split; [exact Hc2 | split; [exact Hs2 | apply Hcols2; exact Hcols1]] |].
  split; [exact Hrows |].
  split.
  { split; [exact Hids |]. destruct Hcase as [[_ ->] | [_ [_ Happ]]].
    - left. reflexivity.
    - right. exists (id p). rewrite Happ, map_app. reflexivity. }
  split; [split; [exact Hsess | exact Hwords] |].
  rewrite (Hview _ Hgoc). unfold update_progress_call. rewrite Hupd.
  fold p'. destruct (storable p'); [| reflexivity].
  cbn [save_progress tables StudySession_objects]. rewrite Hsess.
  reflexivity.
Qed.

(** ** The view [check_answer] *)

Lemma check_answer_not_post `{PyStr} (st : Store) (u : Z) (request : Request)
    (c1 c2 t1 t2 : datetime) :
  method request <> "POST"%string ->
  check_answer st u request c1 c2 t1 t2 = (InvalidRequest, st).
Proof.
  intros Hm. unfold check_answer.
  apply String.eqb_neq in Hm. rewrite Hm. reflexivity.
Qed.

Lemma check_answer_no_word `{PyStr} (st : Store) (u : Z) (request : Request)
    (c1 c2 t1 t2 : datetime) (r : JsonResponse) :
  method request = "POST"%string ->
  get_word_or_404 (tables st) (POST_word_id request) = inr r ->
  check_answer st u request c1 c2 t1 t2 = (r, st).
Proof.
  intros Hm Hword. unfold check_answer.
  apply String.eqb_eq in Hm. rewrite Hm, Hword. reflexivity.
Qed.

(** When the lookup of the word fails under the constraints, the word
    is not there or the field is not a number. *)
Lemma get_word_or_404_inr `{PyStr} (db : Database) (v : option string)
    (r : JsonResponse) :
  NoDup (map word_id (Word_objects db)) ->
  get_word_or_404 db v = inr r ->
  (r = NotFound /\
   (v = None \/
    exists s k, v = Some s /\ int_of_str s = Some k /\
                forall w, In w (Word_objects db) -> word_id w <> k)) \/
  (r = Failed NotANumber /\ exists s, v = Some s /\ int_of_str s = None).
Proof.
  intros Hnd. unfold get_word_or_404, id_filter.
  destruct v as [s |].
  - destruct (int_of_str s) as [k |] eqn:Hint.
    + destruct (objects_get_by_key word_id k (fun a => word_id a =? k)
                  (Word_objects db) Hnd) as [[w Hget] | Hget].
      * intros a. apply Z.eqb_eq.
      * rewrite Hget. discriminate.
      * rewrite Hget. intros Hr. injection Hr as <-. left.
        split; [reflexivity |]. right. exists s, k.
        split; [reflexivity |]. split; [exact Hint |].
        intros w Hw. apply Z.eqb_neq.
        apply (proj1 (objects_get_missing _ _) Hget). exact Hw.
    + intros Hr. injection Hr as <-. right.
      split; [reflexivity |]. exists s. split; [reflexivity | exact Hint].
  - replace (objects_get (fun _ : Word => false) (Word_objects db))
      with (@inr Word failure DoesNotExist).
    + intros Hr. injection Hr as <-. left. split; [reflexivity |].
      left. reflexivity.
    + symmetry. apply objects_get_missing. reflexivity.
Qed.

(** The lookup of the session under the constraints: it fails when the
    field is missing, is not a number or is the key of no session. *)
Lemma session_lookup `{PyStr} (db : Database) (v : option string) :
  NoDup (map session_id (StudySession_objects db)) ->
  match id_filter session_id v with
  | inr e => e = NotANumber /\ exists s, v = Some s /\ int_of_str s = None
  | inl f =>
      match objects_get f (StudySession_objects db) with
      | inl s => In s (StudySession_objects db) /\
                 exists t, v = Some t /\ int_of_str t = Some (session_id s)
      | inr e => e = DoesNotExist /\
                 (v = None \/
                  exists t k, v = Some t /\ int_of_str t = Some k /\
                    forall s, In s (StudySession_objects db) -> session_id s <> k)
      end
  end.
Proof.
  intros Hnd. unfold id_filter. destruct v as [t |].
  - destruct (int_of_str t) as [k |] eqn:Hint.
    + destruct (objects_get_by_key session_id k (fun a => session_id a =? k)
                  (StudySession_objects db) Hnd) as [[s Hget] | Hget].
      * intros a. apply Z.eqb_eq.
      * rewrite Hget. apply objects_get_In in Hget. destruct Hget as [Hin Hk].
        apply Z.eqb_eq in Hk. split; [exact Hin |].
        exists t. split; [reflexivity | congruence].
      * rewrite Hget. split; [reflexivity |]. right. exists t, k.
        split; [reflexivity |]. split; [exact Hint |].
        intros s Hs. apply Z.eqb_neq.
        apply (proj1 (objects_get_missing _ _) Hget). exact Hs.
    + split; [reflexivity |]. exists t. split; [reflexivity | exact Hint].
  - replace (objects_get (fun _ : StudySession => false) (StudySession_objects db))
      with (@inr StudySession failure DoesNotExist).
    + split; [reflexivity |]. left. reflexivity.
    + symmetry. apply objects_get_missing. reflexivity.
Qed.

Lemma count_answer_sound (s : StudySession) (is_correct : bool) :
  0 <= correct_answers s <= words_practiced s ->
  0 <= correct_answers (count_answer s is_correct)
    <= words_practiced (count_answer s is_correct).
Proof. destruct is_correct; cbn; lia. Qed.

(** A session of the table after one more answer can be written when
    its answers are below the largest integer of a column. *)
Lemma count_answer_storable (s : StudySession) (is_correct : bool) :
  storable_session s = true ->
  0 <= correct_answers s <= words_practiced s ->
  words_practiced s < int_max ->
  storable_session (count_answer s is_correct) = true.
Proof.
  unfold storable_session, count_answer.
  cbn [session_id session_user words_practiced correct_answers].
  rewrite !andb_true_iff, !in_column_spec. unfold int_max.
  destruct is_correct; lia.
Qed.

(** X6: for every request the view keeps the constraints of the tables,
    the soundness of the numbers, and the integers of the rows within
    the columns.  It changes no word, removes no progress row and adds
    at most one, and keeps the keys of the sessions.  Whatever it fails
    with, it is never [IndexError] from the table of the update and
    never more than one row for a lookup. *)
Theorem check_answer_keeps_constraints `{PyStr} (st : Store) (u : Z)
    (request : Request) (c1 c2 t1 t2 : datetime) :
  constraints (tables st) ->
  sound_counts (tables st) ->
  in_columns (tables st) ->
  let result := check_answer st u request c1 c2 t1 t2 in
  constraints (tables (snd result)) /\
  sound_counts (tables (snd result)) /\
  in_columns (tables (snd result)) /\
  Word_objects (tables (snd result)) = Word_objects (tables st) /\
  (map id (UserProgress_objects (tables (snd result))) =
     map id (UserProgress_objects (tables st)) \/
   exists k, map id (UserProgress_objects (tables (snd result))) =
               map id (UserProgress_objects (tables st)) ++ [k]) /\
  map session_id (StudySession_objects (tables (snd result))) =
    map session_id (StudySession_objects (tables st)) /\
  fst result <> Failed (Raised IndexError) /\
  fst result <> Failed MultipleObjectsReturned.
Proof.
  intros Hcons Hsound Hcols result. subst result.
  assert (Hsame : forall r,
            r <> Failed (Raised IndexError) -> r <> Failed MultipleObjectsReturned ->
            constraints (tables (snd (r, st))) /\
            sound_counts (tables (snd (r, st))) /\
            in_columns (tables (snd (r, st))) /\
            Word_objects (tables (snd (r, st))) = Word_objects (tables st) /\
            (map id (UserProgress_objects (tables (snd (r, st)))) =
               map id (UserProgress_objects (tables st)) \/
             exists k, map id (UserProgress_objects (tables (snd (r, st)))) =
                         map id (UserProgress_objects (tables st)) ++ [k]) /\
            map session_id (StudySession_objects (tables (snd (r, st)))) =
              map session_id (StudySession_objects (tables st)) /\
            fst (r, st) <> Failed (Raised IndexError) /\
            fst (r, st) <> Failed MultipleObjectsReturned).
  { intros r Hr1 Hr2. cbn [fst snd].
    split; [exact Hcons |]. split; [exact Hsound |]. split; [exact Hcols |].
    split; [reflexivity |]. split; [left; reflexivity |]. split; [reflexivity |].
    split; assumption. }
  destruct (string_dec (method request) "POST") as [Hm | Hm].
  2:{ rewrite (check_answer_not_post st u request c1 c2 t1 t2 Hm).
      apply Hsame; discriminate. }
  destruct (get_word_or_404 (tables st) (POST_word_id request)) as [w | r] eqn:Hword.
  2:{ rewrite (check_answer_no_word st u request c1 c2 t1 t2 r Hm Hword).
      destruct (get_word_or_404_inr _ _ _ (proj1 Hcons) Hword) as [[-> _] | [-> _]];
        apply Hsame; discriminate. }
  destruct (check_answer_path st u request c1 c2 t1 t2 w Hcons Hsound Hcols Hm Hword)
    as [[e [Hgoc [He Heq]]] | [p [st1 [p' [Hgoc [Hupd [Hp [[Hu [Hpword [Hstore Hlevel]]] [Hrow [[Hc1 [Hs1 Hcol1]] [[Hc2 [Hs2 Hcol2]] [Hrows [[Hids Hids1] [[Hsess Hwords] Heq]]]]]]]]]]]]]].
  { rewrite Heq. destruct He as [-> | ->]; apply Hsame; discriminate. }
  rewrite Heq. clear Heq.
  destruct (storable p') eqn:Hstore'.
  2:{ cbn [fst snd]. split; [exact Hc1 |]. split; [exact Hs1 |].
      split; [exact Hcol1 |]. split; [exact Hwords |]. split; [exact Hids1 |].
      split; [rewrite Hsess; reflexivity |]. split; discriminate. }
  specialize (Hcol2 eq_refl).
  assert (Hids2 : map id (UserProgress_objects (tables (save_progress st1 p'))) =
                    map id (UserProgress_objects (tables st)) \/
                  exists k, map id (UserProgress_objects (tables (save_progress st1 p'))) =
                              map id (UserProgress_objects (tables st)) ++ [k])
    by (rewrite Hids; exact Hids1).
  assert (Hsess2 : StudySession_objects (tables (save_progress st1 p')) =
                   StudySession_objects (tables st)) by exact Hsess.
  assert (Hwords2 : Word_objects (tables (save_progress st1 p')) =
                    Word_objects (tables st)) by exact Hwords.
  assert (Hkept : forall r,
            r <> Failed (Raised IndexError) -> r <> Failed MultipleObjectsReturned ->
            constraints (tables (snd (r, save_progress st1 p'))) /\
            sound_counts (tables (snd (r, save_progress st1 p'))) /\
            in_columns (tables (snd (r, save_progress st1 p'))) /\
            Word_objects (tables (snd (r, save_progress st1 p'))) =
              Word_objects (tables st) /\
            (map id (UserProgress_objects (tables (snd (r, save_progress st1 p')))) =
               map id (UserProgress_objects (tables st)) \/
             exists k,
               map id (UserProgress_objects (tables (snd (r, save_progress st1 p')))) =
                 map id (UserProgress_objects (tables st)) ++ [k]) /\
            map session_id
              (StudySession_objects (tables (snd (r, save_progress st1 p')))) =
              map session_id (StudySession_objects (tables st)) /\
            fst (r, save_progress st1 p') <> Failed (Raised IndexError) /\
            fst (r, save_progress st1 p') <> Failed MultipleObjectsReturned).
  { intros r Hr1 Hr2. cbn [fst snd].
    split; [exact Hc2 |]. split; [exact Hs2 |]. split; [exact Hcol2 |].
    split; [exact Hwords2 |]. split; [exact Hids2 |].
    split; [rewrite Hsess2; reflexivity |]. split; assumption. }
  pose proof (session_lookup (tables st) (POST_session_id request)
                (proj1 (proj2 (proj2 (proj2 Hcons))))) as Hlook.
  destruct (id_filter session_id (POST_session_id request)) as [f | e].
  2:{ destruct Hlook as [-> _]. apply Hkept; discriminate. }
  destruct (objects_get f (StudySession_objects (tables st))) as [s | e].
  2:{ destruct Hlook as [-> _]. apply Hkept; discriminate. }
  destruct (storable_session (count_answer s (is_correct_answer request w)))
    eqn:Hstorable.
  2:{ apply Hkept; discriminate. }
  destruct Hlook as [Hs _]. cbn [fst snd].
  rewrite <- Hsess2 in Hs.
  destruct (save_session_spec (save_progress st1 p') s
              (count_answer s (is_correct_answer request w)) Hc2 Hs2 Hs eq_refl)
    as [Hc3 [Hs3 [_ [Hsids Hcol3]]]].
  { apply count_answer_sound. destruct Hs2 as [_ Hall].
    rewrite Forall_forall in Hall. apply Hall. exact Hs. }
  split; [exact Hc3 |]. split; [exact Hs3 |].
  split; [apply Hcol3; assumption |].
  split; [exact Hwords2 |]. split; [exact Hids2 |].
  split; [rewrite Hsids, Hsess2; reflexivity |].
  split; discriminate.
Qed.

(** On a POST that passes the lookup of the word the view answers or
    fails with an exception. *)
Lemma check_answer_found_response `{PyStr} (st : Store) (u : Z) (request : Request)
    (c1 c2 t1 t2 : datetime) (w : Word) :
  method request = "POST"%string ->
  get_word_or_404 (tables st) (POST_word_id request) = inl w ->
  (exists e, fst (check_answer st u request c1 c2 t1 t2) = Failed e) \/
  (exists b a l x, fst (check_answer st u request c1 c2 t1 t2) = Answered b a l x).
Proof.
  intros Hm Hword. unfold check_answer. rewrite Hm.
  cbn [String.eqb Ascii.eqb Bool.eqb]. rewrite Hword.
  destruct (get_or_create st u (word_id w) c1 c2) as [[p st1] | e];
    [| left; eexists; reflexivity].
  destruct (update_progress_call _ _ _ _) as [p' [[] | e]];
    [| left; eexists; reflexivity].
  destruct (id_filter session_id (POST_session_id request)) as [f | e];
    [| left; eexists; reflexivity].
  destruct (objects_get f _) as [s | e]; [| left; eexists; reflexivity].
  destruct (storable_session _).
  - right. do 4 eexists. reflexivity.
  - left. eexists. reflexivity.
Qed.

(** X7: the view refuses a request that is not a POST with status 400,
    and a POST whose word field is missing or is the key of no word
    with the page of [Http404], and in no other case; a request that is
    refused leaves the tables as they were. *)
Theorem check_answer_refusals `{PyStr} (st : Store) (u : Z) (request : Request)
    (c1 c2 t1 t2 : datetime) :
  constraints (tables st) ->
  sound_counts (tables st) ->
  let result := check_answer st u request c1 c2 t1 t2 in
  (fst result = InvalidRequest <-> method request <> "POST"%string) /\
  (fst result = NotFound <->
   method request = "POST"%string /\
   (POST_word_id request = None \/
    exists s k, POST_word_id request = Some s /\ int_of_str s = Some k /\
                forall w, In w (Word_objects (tables st)) -> word_id w <> k)) /\
  (fst result = InvalidRequest \/ fst result = NotFound -> snd result = st).
Proof.
  intros Hcons Hsound result. subst result.
  destruct (string_dec (method request) "POST") as [Hm | Hm].
  2:{ rewrite (check_answer_not_post st u request c1 c2 t1 t2 Hm). cbn [fst snd].
      split; [split; [intros _; exact Hm | reflexivity] |].
      split; [| reflexivity].
      split; [discriminate | intros [Hpost _]; contradiction]. }
  destruct (get_word_or_404 (tables st) (POST_word_id request)) as [w | r] eqn:Hword.
  - assert (Hres : fst (check_answer st u request c1 c2 t1 t2) <> InvalidRequest /\
                   fst (check_answer st u request c1 c2 t1 t2) <> NotFound).
    { destruct (check_answer_found_response st u request c1 c2 t1 t2 w Hm Hword)
        as [[e ->] | [b [a [l [x ->]]]]]; split; discriminate. }
    apply get_word_or_404_inl in Hword. destruct Hword as [Hin [s [Hs Hint]]].
    destruct Hres as [H400 H404].
    split; [split; [intros Hr; contradiction | intros Hn; contradiction] |].
    split; [| intros [Hr | Hr]; contradiction].
    split; [intros Hr; contradiction |].
    intros [_ [Hnone | [s' [k [Hs' [Hint' Hno]]]]]].
    + congruence.
    + exfalso. rewrite Hs in Hs'. injection Hs' as <-.
      rewrite Hint in Hint'. injection Hint' as <-.
      apply (Hno w Hin). reflexivity.
  - rewrite (check_answer_no_word st u request c1 c2 t1 t2 r Hm Hword).
    cbn [fst snd].
    destruct (get_word_or_404_inr _ _ _ (proj1 Hcons) Hword)
      as [[-> Hwhy] | [-> [s [Hs Hint]]]].
    + split; [split; [discriminate | intros Hn; contradiction] |].
      split; [| reflexivity].
      split; [intros _; split; [exact Hm | exact Hwhy] | reflexivity].
    + split; [split; [discriminate | intros Hn; contradiction] |].
      split; [| reflexivity].
      split; [discriminate |].
      intros [_ [Hnone | [s' [k [Hs' [Hint' _]]]]]]; congruence.
Qed.

(** With room for the answer the row that the view updates can be
    written after its update. *)
Lemma room_storable (st : Store) (u w : Z) (c1 c2 : datetime)
    (p : UserProgress) (is_correct : bool) (t1 t2 : datetime) :
  room_for_answer st u w ->
  (In p (UserProgress_objects (tables st)) \/
   ((forall q, In q (UserProgress_objects (tables st)) -> (user q, word q) <> (u, w)) /\
    p = fresh (Z.max (UserProgress_seq st)
                 (max_id (UserProgress_objects (tables st))) + 1) u w c1 c2)) ->
  user p = u -> word p = w -> storable p = true -> 0 <= mastery_level p <= 5 ->
  update_progress_call p is_correct t1 t2 =
    (fst (update_progress p is_correct t1 t2), Return tt) /\
  storable (fst (update_progress p is_correct t1 t2)) = true.
Proof.
  intros [_ [_ Hroom]] Horigin Hu Hw Hstore Hlevel.
  apply update_progress_storable; try assumption.
  destruct Horigin as [Hin | [_ ->]].
  - destruct (Hroom p Hin Hu Hw). destruct is_correct; assumption.
  - unfold int_max. destruct is_correct; cbn; lia.
Qed.

(** The integer of a word of the table is an integer of a column. *)
Lemma word_in_column (db : Database) (w : Word) :
  in_columns db -> In w (Word_objects db) -> in_column (word_id w) = true.
Proof.
  intros [Hcw _] Hin. rewrite Forall_forall in Hcw. apply Hcw. exact Hin.
Qed.

(** X8: on tables with room for the answer, a POST for a word of the
    table saves the update of the user's row for that word whatever
    the session field holds.  The row that is updated is the one of the
    table, or a new row with the defaults when the user has none for
    the word; the call of the update returns; the table then holds the
    updated row and the rows of other users and words as they were.
    The response is the answer with the new level, or a failure of the
    lookup or the save of the session, which leaves the sessions as
    they were. *)
Theorem check_answer_saves_progress `{PyStr} (st : Store) (u : Z)
    (request : Request) (c1 c2 t1 t2 : datetime) (w : Word) (sw : string) :
  constraints (tables st) ->
  sound_counts (tables st) ->
  in_columns (tables st) ->
  room_for_answer st u (word_id w) ->
  method request = "POST"%string ->
  POST_word_id request = Some sw ->
  int_of_str sw = Some (word_id w) ->
  In w (Word_objects (tables st)) ->
  let is_correct := is_correct_answer request w in
  let result := check_answer st u request c1 c2 t1 t2 in
  exists p p',
    (In p (UserProgress_objects (tables st)) \/
     ((forall q, In q (UserProgress_objects (tables st)) ->
         (user q, word q) <> (u, word_id w)) /\
      p = fresh (Z.max (UserProgress_seq st)
                   (max_id (UserProgress_objects (tables st))) + 1)
            u (word_id w) c1 c2)) /\
    user p = u /\ word p = word_id w /\
    update_progress_call p is_correct t1 t2 = (p', Return tt) /\
    (forall q, In q (UserProgress_objects (tables (snd result))) <->
               q = p' \/ (In q (UserProgress_objects (tables st)) /\
                          (user q, word q) <> (u, word_id w))) /\
    (fst result =
       Answered is_correct (translation w) (mastery_level p') (example_sentence w) \/
     (fst result = Failed DoesNotExist \/ fst result = Failed NotANumber \/
      fst result = Failed (Raised OverflowError)) /\
     StudySession_objects (tables (snd result)) = StudySession_objects (tables st)).
Proof.
  intros Hcons Hsound Hcols Hroom Hm Hsw Hint Hw is_correct result. subst result.
  assert (Hword : get_word_or_404 (tables st) (POST_word_id request) = inl w)
    by (rewrite Hsw; apply get_word_or_404_found; [apply Hcons | assumption ..]).
  destruct (check_answer_path st u request c1 c2 t1 t2 w Hcons Hsound Hcols Hm Hword)
    as [[e [Hgoc [He Heq]]] | [p [st1 [p' [Hgoc [Hupd [Hp [[Hu [Hpword [Hstore Hlevel]]] [Hrow [[Hc1 [Hs1 Hcol1]] [[Hc2 [Hs2 Hcol2]] [Hrows [[Hids Hids1] [[Hsess Hwords] Heq]]]]]]]]]]]]]].
  { destruct (get_or_create_room st u (word_id w) c1 c2 Hcons Hsound Hcols
                (word_in_column _ w Hcols Hw) Hroom) as [p [st1 Hgoc']].
    congruence. }
  fold is_correct in Hupd, Heq.
  destruct (room_storable st u (word_id w) c1 c2 p is_correct t1 t2
              Hroom Hp Hu Hpword Hstore Hlevel) as [Hcall Hstore'].
  rewrite Hupd in Hcall, Hstore'. cbn [fst] in Hcall, Hstore'.
  exists p, p'. split; [exact Hp |]. split; [exact Hu |]. split; [exact Hpword |].
  split; [exact Hcall |]. rewrite Heq, Hstore'.
  pose proof (session_lookup (tables st) (POST_session_id request)
                (proj1 (proj2 (proj2 (proj2 Hcons))))) as Hlook.
  destruct (id_filter session_id (POST_session_id request)) as [f | e].
  - destruct (objects_get f (StudySession_objects (tables st))) as [s | e].
    + destruct (storable_session (count_answer s is_correct)); cbn [fst snd].
      * split; [exact Hrows | left; reflexivity].
      * split; [exact Hrows |]. right.
        split; [right; right; reflexivity | exact Hsess].
    + destruct Hlook as [-> _]. cbn [fst snd].
      split; [exact Hrows |]. right. split; [left; reflexivity | exact Hsess].
  - destruct Hlook as [-> _]. cbn [fst snd].
    split; [exact Hrows |]. right. split; [right; left; reflexivity | exact Hsess].
Qed.

(** X9: on tables with room for the answer, a POST for a word of the
    table and a session of the table with fewer answers than the
    largest integer of a column is answered with status 200, and the
    session is saved with one more answer, and with one more correct
    answer when the answer is correct; the other sessions and the words
    stay as they were. *)
Theorem check_answer_counts_session `{PyStr} (st : Store) (u : Z)
    (request : Request) (c1 c2 t1 t2 : datetime) (w : Word) (s : StudySession)
    (sw ss : string) :
  constraints (tables st) ->
  sound_counts (tables st) ->
  in_columns (tables st) ->
  room_for_answer st u (word_id w) ->
  method request = "POST"%string ->
  POST_word_id request = Some sw ->
  int_of_str sw = Some (word_id w) ->
  In w (Word_objects (tables st)) ->
  POST_session_id request = Some ss ->
  int_of_str ss = Some (session_id s) ->
  In s (StudySession_objects (tables st)) ->
  words_practiced s < int_max ->
  let is_correct := is_correct_answer request w in
  let result := check_answer st u request c1 c2 t1 t2 in
  (exists level,
     fst result = Answered is_correct (translation w) level (example_sentence w) /\
     0 <= level <= 5) /\
  (forall x, In x (StudySession_objects (tables (snd result))) <->
             x = mkStudySession (session_id s) (session_user s) (start_time s)
                   (end_time s) (words_practiced s + 1)
                   (if is_correct then correct_answers s + 1 else correct_answers s) \/
             (In x (StudySession_objects (tables st)) /\
              session_id x <> session_id s)) /\
  Word_objects (tables (snd result)) = Word_objects (tables st).
Proof.
  intros Hcons Hsound Hcols Hroom Hm Hsw Hint Hw Hss Hsint Hs Hfew
    is_correct result. subst result.
  assert (Hword : get_word_or_404 (tables st) (POST_word_id request) = inl w)
    by (rewrite Hsw; apply get_word_or_404_found; [apply Hcons | assumption ..]).
  destruct (check_answer_path st u request c1 c2 t1 t2 w Hcons Hsound Hcols Hm Hword)
    as [[e [Hgoc [He Heq]]] | [p [st1 [p' [Hgoc [Hupd [Hp [[Hu [Hpword [Hstore Hlevel]]] [Hrow [[Hc1 [Hs1 Hcol1]] [[Hc2 [Hs2 Hcol2]] [Hrows [[Hids Hids1] [[Hsess Hwords] Heq]]]]]]]]]]]]]].
  { destruct (get_or_create_room st u (word_id w) c1 c2 Hcons Hsound Hcols
                (word_in_column _ w Hcols Hw) Hroom) as [p [st1 Hgoc']].
    congruence. }
  fold is_correct in Hupd, Heq.
  destruct (room_storable st u (word_id w) c1 c2 p is_correct t1 t2
              Hroom Hp Hu Hpword Hstore Hlevel) as [_ Hstore'].
  rewrite Hupd in Hstore'. cbn [fst] in Hstore'.
  rewrite Heq, Hstore'. rewrite Hss. unfold id_filter. rewrite Hsint.
  assert (Hget : objects_get (fun a => session_id a =? session_id s)
                   (StudySession_objects (tables st)) = inl s).
  { apply objects_get_inl. apply (filter_unique session_id); try assumption.
    - apply Hcons.
    - apply Z.eqb_refl.
    - intros r _ Hr. apply Z.eqb_eq. exact Hr. }
  rewrite Hget.
  assert (Hsound_s : 0 <= correct_answers s <= words_practiced s).
  { destruct Hsound as [_ Hall]. rewrite Forall_forall in Hall.
    apply Hall. exact Hs. }
  assert (Hstore_s : storable_session s = true).
  { destruct Hcols as [_ [_ Hcs]]. rewrite Forall_forall in Hcs.
    apply Hcs. exact Hs. }
  rewrite (count_answer_storable s is_correct Hstore_s Hsound_s Hfew).
  cbn [fst snd].
  assert (Hs' : In s (StudySession_objects (tables (save_progress st1 p'))))
    by (cbn [save_progress tables StudySession_objects]; rewrite Hsess; exact Hs).
  destruct (save_session_spec (save_progress st1 p') s (count_answer s is_correct)
              Hc2 Hs2 Hs' eq_refl) as [_ [_ [Hsrows _]]].
  { apply count_answer_sound. exact Hsound_s. }
  split; [| split].
  - exists (mastery_level p'). split; [reflexivity | apply Hrow].
  - intros x. rewrite Hsrows.
    cbn [save_progress tables StudySession_objects]. rewrite Hsess. reflexivity.
  - exact Hwords.
Qed.

(** ** Practice and answers together *)

Lemma In_slice_to {A : Type} (k : Z) (l : list A) (x : A) :
  In x (slice_to k l) -> In x l.
Proof.
  unfold slice_to. intros Hin.
  rewrite <- (firstn_skipn (Z.to_nat k) l). apply in_or_app. left. exact Hin.
Qed.

Lemma due_words_In (db : Database) (u : Z) (now : datetime) (q : UserProgress) :
  In q (due_words db u now) ->
  In q (UserProgress_objects db) /\ user q = u /\ next_review q <= now.
Proof.
  unfold due_words. intros Hin. apply In_slice_to in Hin.
  apply -> (order_by_In UserProgress_ordering) in Hin.
  apply filter_In in Hin. destruct Hin as [Hrow Hdue].
  unfold is_due in Hdue. apply andb_true_iff in Hdue. destruct Hdue as [Hu Hn].
  split; [exact Hrow |]. split; [apply Z.eqb_eq | apply Z.leb_le]; assumption.
Qed.

Lemma new_words_In (db : Database) (u k : Z) (w : Word) :
  In w (new_words db u k) ->
  In w (Word_objects db) /\ not_learned db u w = true.
Proof.
  unfold new_words. intros Hin. apply In_slice_to in Hin.
  apply -> (order_by_In Word_ordering) in Hin.
  apply filter_In in Hin. exact Hin.
Qed.

(** An update that returns has set [last_reviewed] to the clock and
    [next_review] at least one day after it, for any input. *)
Lemma update_progress_schedules (self self' : UserProgress) (is_correct : bool)
    (t1 t2 : datetime) :
  update_progress self is_correct t1 t2 = (self', Return tt) ->
  last_reviewed self' = t1 /\ t2 + timedelta_days 1 <= next_review self'.
Proof.
  destruct self as [i u w m c n lr nr].
  destruct is_correct; unfold update_progress; cbn.
  - destruct (getitem_intervals (Z.min 5 (m + 1)))
      as [[_ [d [Hget [Hd _]]]] | [_ Hget]]; rewrite Hget.
    + intros Heq. injection Heq as <-. cbn.
      split; [reflexivity | unfold timedelta_days; lia].
    + discriminate.
  - intros Heq. injection Heq as <-. cbn. split; [reflexivity | lia].
Qed.

(** X10: on tables with room for the answer, after a POST for a word
    of the table, a practice of the same user that starts less than a
    day after the clock of the update does not show that word, neither
    as a due row nor as a new word. *)
Theorem answered_word_not_practiced `{PyStr} (st : Store) (u : Z)
    (request : Request) (c1 c2 t1 t2 now : datetime) (w : Word) (sw : string) :
  constraints (tables st) ->
  sound_counts (tables st) ->
  in_columns (tables st) ->
  room_for_answer st u (word_id w) ->
  method request = "POST"%string ->
  POST_word_id request = Some sw ->
  int_of_str sw = Some (word_id w) ->
  In w (Word_objects (tables st)) ->
  now < t2 + timedelta_days 1 ->
  forall e,
    In e (practice_words (tables (snd (check_answer st u request c1 c2 t1 t2))) u now) ->
    match e with
    | Progress q => word q <> word_id w
    | Obj w' _ => word_id w' <> word_id w
    end.
Proof.
  intros Hcons Hsound Hcols Hroom Hm Hsw Hint Hw Hnow item Hitem.
  assert (Hword : get_word_or_404 (tables st) (POST_word_id request) = inl w)
    by (rewrite Hsw; apply get_word_or_404_found; [apply Hcons | assumption ..]).
  destruct (check_answer_path st u request c1 c2 t1 t2 w Hcons Hsound Hcols Hm Hword)
    as [[e [Hgoc [He Heq]]] | [p [st1 [p' [Hgoc [Hupd [Hp [[Hu [Hpword [Hstore Hlevel]]] [Hrow [[Hc1 [Hs1 Hcol1]] [[Hc2 [Hs2 Hcol2]] [Hrows [[Hids Hids1] [[Hsess Hwords] Heq]]]]]]]]]]]]]].
  { destruct (get_or_create_room st u (word_id w) c1 c2 Hcons Hsound Hcols
                (word_in_column _ w Hcols Hw) Hroom) as [p [st1 Hgoc']].
    congruence. }
  destruct (room_storable st u (word_id w) c1 c2 p (is_correct_answer request w)
              t1 t2 Hroom Hp Hu Hpword Hstore Hlevel) as [_ Hstore'].
  rewrite Hupd in Hstore'. cbn [fst] in Hstore'.
  destruct (update_progress_key p (is_correct_answer request w) t1 t2)
    as [_ [Hpu Hpw]].
  rewrite Hupd in Hpu, Hpw. cbn [fst] in Hpu, Hpw.
  apply update_progress_schedules in Hupd. destruct Hupd as [_ Hnext].
  assert (Hrows' : UserProgress_objects
                     (tables (snd (check_answer st u request c1 c2 t1 t2))) =
                   UserProgress_objects (tables (save_progress st1 p'))).
  { rewrite Heq, Hstore'.
    destruct (id_filter session_id (POST_session_id request)) as [f | err];
      [destruct (objects_get f _) as [s | err];
         [destruct (storable_session _) |] |]; reflexivity. }
  unfold practice_words in Hitem. apply in_app_or in Hitem.
  destruct Hitem as [Hitem | Hitem]; apply in_map_iff in Hitem;
    destruct Hitem as [x [<- Hx]].
  - apply due_words_In in Hx. destruct Hx as [Hin [Hxu Hdue]].
    rewrite Hrows' in Hin. apply Hrows in Hin.
    destruct Hin as [-> | [_ Hother]]; [lia |].
    intros Hxw. apply Hother. congruence.
  - apply new_words_In in Hx. destruct Hx as [_ Hnew].
    intros Hsame.
    apply (proj1 (not_learned_no_progress _ u x) Hnew p').
    + rewrite Hrows'. apply Hrows. left. reflexivity.
    + congruence.
    + congruence.
Qed.


(** X12: the key that [practice] renders is accepted by
    [check_answer]: when the key is an integer of a column and there
    is room for the answer, a POST with that key for a word of the
    table is answered, and the session of the practice then counts one
    answer, and one correct answer when the answer is correct. *)
Theorem practice_session_is_found `{PyStr} (db db' : Database) (u last_key : Z)
    (now start c1 c2 t1 t2 : datetime) (words : list (UserProgress + Word))
    (sid : Z) (request : Request) (w : Word) (sw ss : string) :
  constraints db ->
  sound_counts db ->
  in_columns db ->
  room_for_answer (mkStore db last_key) u (word_id w) ->
  in_column (StudySession_seq db + 1) = true ->
  practice db u now start = (PracticePage words sid, db') ->
  method request = "POST"%string ->
  POST_word_id request = Some sw ->
  int_of_str sw = Some (word_id w) ->
  In w (Word_objects db) ->
  POST_session_id request = Some ss ->
  int_of_str ss = Some sid ->
  let result := check_answer (mkStore db' last_key) u request c1 c2 t1 t2 in
  let is_correct := is_correct_answer request w in
  (exists level,
     fst result = Answered is_correct (translation w) level (example_sentence w)) /\
  In (mkStudySession sid u start None 1 (if is_correct then 1 else 0))
    (StudySession_objects (tables (snd result))) /\
  forall x, In x (StudySession_objects (tables (snd result))) ->
            session_id x = sid ->
            x = mkStudySession sid u start None 1 (if is_correct then 1 else 0).
Proof.
  intros Hcons Hsound Hcols Hroom Hkey Hpractice Hm Hsw Hint Hw Hss Hsint
    result is_correct.
  subst result.
  assert (Hdb' : constraints db' /\ sound_counts db' /\ in_columns db' /\
                 Word_objects db' = Word_objects db /\
                 UserProgress_objects db' = UserProgress_objects db /\
                 sid = StudySession_seq db + 1 /\
                 StudySession_objects db' =
                   StudySession_objects db ++ [mkStudySession sid u start None 0 0] /\
                 ~ In sid (map session_id (StudySession_objects db))).
  { unfold practice in Hpractice.
    destruct (practice_words db u now) as [| e l]; [discriminate |].
    cbn [create_session session_id] in Hpractice.
    injection Hpractice as _ <- <-.
    destruct Hcons as [Hwd [Hids [Hpairs [Hsids Hseq]]]].
    destruct Hsound as [Hrows Hsess].
    destruct Hcols as [Hcw [Hcp Hcs]].
    assert (Hnew : ~ In (StudySession_seq db + 1)
                     (map session_id (StudySession_objects db))).
    { intros Hin. apply in_map_iff in Hin. destruct Hin as [s [Hs Hin]].
      rewrite Forall_forall in Hseq. specialize (Hseq s Hin). lia. }
    unfold constraints, sound_counts, in_columns.
    cbn [Word_objects UserProgress_objects StudySession_objects StudySession_seq].
    split; [| split; [| split; [| repeat split; assumption]]].
    - split; [exact Hwd |]. split; [exact Hids |]. split; [exact Hpairs |].
      split.
      + rewrite map_app. cbn [map session_id]. apply NoDup_snoc; assumption.
      + apply Forall_app. split.
        * apply Forall_forall. intros s Hs. rewrite Forall_forall in Hseq.
          specialize (Hseq s Hs). lia.
        * constructor; [cbn; lia | constructor].
    - split; [exact Hrows |]. apply Forall_app. split; [exact Hsess |].
      constructor; [cbn; lia | constructor].
    - split; [exact Hcw |]. split; [exact Hcp |].
      apply Forall_app. split; [exact Hcs |].
      constructor; [| constructor].
      unfold storable_session.
      cbn [session_id session_user words_practiced correct_answers].
      rewrite Hkey, (proj1 Hroom). reflexivity. }
  destruct Hdb' as [Hcons' [Hsound' [Hcols' [Hwords' [Hrows' [Hsid [Hsessions Hnew]]]]]]].
  set (st := mkStore db' last_key).
  set (s := mkStudySession sid u start None 0 0).
  assert (Hroom' : room_for_answer st u (word_id w)).
  { unfold room_for_answer in *. cbn [st tables UserProgress_seq] in *.
    rewrite Hrows'. exact Hroom. }
  assert (Hs : In s (StudySession_objects (tables st)))
    by (cbn [st tables]; rewrite Hsessions; apply in_or_app; right; left; reflexivity).
  assert (Hw' : In w (Word_objects (tables st)))
    by (cbn [st tables]; rewrite Hwords'; exact Hw).
  assert (Hword : get_word_or_404 (tables st) (POST_word_id request) = inl w).
  { rewrite Hsw. apply get_word_or_404_found; [apply Hcons' | | exact Hint].
    exact Hw'. }
  destruct (check_answer_path st u request c1 c2 t1 t2 w Hcons' Hsound' Hcols' Hm Hword)
    as [[e [Hgoc [He Heq]]] | [p [st1 [p' [Hgoc [Hupd [Hp [[Hu [Hpword [Hstore Hlevel]]] [Hrow [[Hc1 [Hs1 Hcol1]] [[Hc2 [Hs2 Hcol2]] [Hrows [[Hids Hids1] [[Hsess Hwords] Heq]]]]]]]]]]]]]].
  { destruct (get_or_create_room st u (word_id w) c1 c2 Hcons' Hsound' Hcols'
                (word_in_column _ w Hcols' Hw') Hroom') as [p [st1 Hgoc']].
    congruence. }
  fold is_correct in Hupd, Heq.
  destruct (room_storable st u (word_id w) c1 c2 p is_correct t1 t2
              Hroom' Hp Hu Hpword Hstore Hlevel) as [_ Hstore'].
  rewrite Hupd in Hstore'. cbn [fst] in Hstore'.
  rewrite Heq, Hstore'. rewrite Hss. unfold id_filter. rewrite Hsint.
  assert (Hget : objects_get (fun a => session_id a =? sid)
                   (StudySession_objects (tables st)) = inl s).
  { apply objects_get_inl. apply (filter_unique session_id); try assumption.
    - apply Hcons'.
    - apply Z.eqb_refl.
    - intros r _ Hr. apply Z.eqb_eq. exact Hr. }
  rewrite Hget.
  assert (Hstore_s : storable_session s = true).
  { destruct Hcols' as [_ [_ Hcs]]. rewrite Forall_forall in Hcs.
    apply Hcs. exact Hs. }
  rewrite (count_answer_storable s is_correct Hstore_s)
    by (cbn; unfold int_max; lia).
  cbn [fst snd].
  assert (Hs' : In s (StudySession_objects (tables (save_progress st1 p'))))
    by (cbn [save_progress tables StudySession_objects]; rewrite Hsess; exact Hs).
  destruct (save_session_spec (save_progress st1 p') s (count_answer s is_correct)
              Hc2 Hs2 Hs' eq_refl) as [_ [_ [Hsrows _]]].
  { destruct is_correct; cbn; lia. }
  assert (Hcount : count_answer s is_correct =
                   mkStudySession sid u start None 1 (if is_correct then 1 else 0))
    by (destruct is_correct; reflexivity).
  rewrite Hcount in Hsrows.
  split; [exists (mastery_level p'); reflexivity |].
  split.
  - apply Hsrows. left. reflexivity.
  - intros x Hx Hxid. apply Hsrows in Hx.
    destruct Hx as [-> | [_ Hne]]; [reflexivity |].
    contradiction Hne.
Qed.

(** ** The views [word_list] and [progress_view] *)

Lemma dict_get_set {V : Type} (k k' : Z) (v : V) (d : list (Z * V)) :
  dict_get k (dict_set k' v d) = if k' =? k then Some v else dict_get k d.
Proof.
  induction d as [| [k0 v0] d IH]; cbn [dict_set dict_get].
  - reflexivity.
  - destruct (Z.eqb_spec k0 k') as [-> | Hne]; cbn [dict_get].
    + destruct (k' =? k); reflexivity.
    + rewrite IH. destruct (Z.eqb_spec k0 k) as [-> | Hne0]; [| reflexivity].
      destruct (Z.eqb_spec k' k) as [-> | _]; [contradiction Hne |]; reflexivity.
Qed.

(** What a dictionary built from rows by their word holds for a key:
    a row of that word, or nothing when there is no such row. *)
Lemma dict_of_rows (k : Z) (rows : list UserProgress) :
  forall d : list (Z * UserProgress),
    match dict_get k (fold_left (fun d p => dict_set (word p) p d) rows d) with
    | Some p => (In p rows /\ word p = k) \/ dict_get k d = Some p
    | None => (forall p, In p rows -> word p <> k) /\ dict_get k d = None
    end.
Proof.
  induction rows as [| r rows IH]; intros d; cbn [fold_left].
  - destruct (dict_get k d) as [p |]; [right; reflexivity |].
    split; [intros p [] | reflexivity].
  - specialize (IH (dict_set (word r) r d)). rewrite dict_get_set in IH.
    destruct (dict_get k (fold_left _ rows _)) as [p |].
    + destruct IH as [[Hin Hw] | Hd].
      * left. split; [right; exact Hin | exact Hw].
      * destruct (Z.eqb_spec (word r) k) as [Hk | Hk].
        -- injection Hd as <-. left. split; [left; reflexivity | exact Hk].
        -- right. exact Hd.
    + destruct IH as [Hnone Hd].
      destruct (Z.eqb_spec (word r) k) as [Hk | Hk]; [discriminate |].
      split; [| exact Hd].
      intros p [<- | Hp]; [exact Hk | apply Hnone; exact Hp].
Qed.

(** The comparison of strings byte by byte is transitive. *)
Lemma string_compare_refl (a : string) : (a ?= a)%string = Eq.
Proof.
  induction a as [| x a IH]; [reflexivity |].
  cbn [String.compare]. unfold Ascii.compare. rewrite N.compare_refl. exact IH.
Qed.

Lemma string_compare_lt_trans (a : string) :
  forall b c : string,
    (a ?= b)%string = Lt -> (b ?= c)%string = Lt -> (a ?= c)%string = Lt.
Proof.
  induction a as [| x a IH]; intros [| y b] [| z c]; cbn [String.compare];
    try discriminate; try reflexivity.
  unfold Ascii.compare.
  destruct (N.compare_spec (N_of_ascii x) (N_of_ascii y)) as [Exy | Lxy | Gxy];
    destruct (N.compare_spec (N_of_ascii y) (N_of_ascii z)) as [Eyz | Lyz | Gyz];
    destruct (N.compare_spec (N_of_ascii x) (N_of_ascii z)) as [Exz | Lxz | Gxz];
    intros Hab Hbc; try discriminate; try reflexivity; try lia.
  apply (IH b c); assumption.
Qed.

Lemma string_compare_le_trans (a b c : string) :
  (a ?= b)%string <> Gt -> (b ?= c)%string <> Gt -> (a ?= c)%string <> Gt.
Proof.
  intros Hab Hbc.
  destruct (a ?= b)%string eqn:Eab; [| | contradiction Hab; reflexivity].
  - apply String.compare_eq_iff in Eab. subst b. exact Hbc.
  - destruct (b ?= c)%string eqn:Ebc; [| | contradiction Hbc; reflexivity].
    + apply String.compare_eq_iff in Ebc. subst c. rewrite Eab. discriminate.
    + rewrite (string_compare_lt_trans a b c Eab Ebc). discriminate.
Qed.

(** The words a query in the order of the model returns ascend by
    difficulty and, within a difficulty, by the word, each word coming
    before every later one. *)
Lemma order_by_difficulty_word (l : list Word) :
  StronglySorted
    (fun v w => (difficulty v ?= difficulty w)%string = Lt \/
                (difficulty v = difficulty w /\
                 (word_text v ?= word_text w)%string <> Gt))
    (order_by Word_ordering l).
Proof.
  apply Sorted_StronglySorted.
  - intros v w x [Hvw | [Evw Hvw]] [Hwx | [Ewx Hwx]].
    + left. apply (string_compare_lt_trans _ _ _ Hvw Hwx).
    + left. rewrite <- Ewx. exact Hvw.
    + left. rewrite Evw. exact Hwx.
    + right. split; [congruence |].
      apply (string_compare_le_trans _ _ _ Hvw Hwx).
  - assert (Htotal : forall x y, Word_ordering x y = false ->
                                 Word_ordering y x = true).
    { unfold Word_ordering. intros x y Hxy.
      rewrite (String.compare_antisym (difficulty y) (difficulty x)).
      destruct (difficulty x ?= difficulty y)%string; cbn [CompOpp].
      - destruct (String.leb_total (word_text x) (word_text y)) as [Hle | Hle];
          [congruence | exact Hle].
      - discriminate.
      - reflexivity. }
    pose proof (order_by_sorted Word_ordering Htotal l) as Hsorted.
    assert (Hle : forall v w, Word_ordering v w = true ->
              (difficulty v ?= difficulty w)%string = Lt \/
              (difficulty v = difficulty w /\
               (word_text v ?= word_text w)%string <> Gt)).
    { unfold Word_ordering, String.leb. intros v w Hvw.
      destruct (difficulty v ?= difficulty w)%string eqn:Ed.
      - right. split; [apply String.compare_eq_iff; exact Ed |].
        destruct (word_text v ?= word_text w)%string; discriminate.
      - left. reflexivity.
      - discriminate. }
    induction Hsorted as [| v l' Hs IH Hhd]; constructor.
    + exact IH.
    + destruct Hhd as [| w l'' Hvw]; constructor. apply Hle. exact Hvw.
Qed.

(** X13: the list [words_with_progress] of the view [word_list] holds
    the words of the difficulty asked for, or all words when none is
    asked for, each word once, in ascending order of the difficulty
    and then of the word, compared byte by byte.  Beside a word it
    holds a progress row of the user for that word, and nothing only
    when the user has no row for it; with one row per user and word it
    holds that row. *)
Theorem word_list_shows_progress (db : Database) (u : Z) (GET_difficulty : option string) :
  let shown := word_list db u GET_difficulty in
  let selected :=
    match GET_difficulty with
    | None | Some EmptyString => Word_objects db
    | Some wanted => filter (fun w => String.eqb (difficulty w) wanted) (Word_objects db)
    end in
  Permutation (map fst shown) selected /\
  StronglySorted
    (fun v w => (difficulty v ?= difficulty w)%string = Lt \/
                (difficulty v = difficulty w /\
                 (word_text v ?= word_text w)%string <> Gt))
    (map fst shown) /\
  forall w o, In (w, o) shown ->
    match o with
    | Some p => In p (UserProgress_objects db) /\ user p = u /\ word p = word_id w
    | None => forall p, In p (UserProgress_objects db) -> user p = u ->
                        word p <> word_id w
    end /\
    (NoDup (map (fun p => (user p, word p)) (UserProgress_objects db)) ->
     forall p, In p (UserProgress_objects db) -> user p = u -> word p = word_id w ->
               o = Some p).
Proof.
  intros shown selected.
  assert (Hfst : map fst shown = order_by Word_ordering selected).
  { subst shown selected. unfold word_list. rewrite map_map. cbn [fst].
    rewrite map_id. destruct GET_difficulty as [[| c s] |]; reflexivity. }
  split; [rewrite Hfst; apply Permutation_sym, order_by_perm |].
  split; [rewrite Hfst; apply order_by_difficulty_word |].
  intros w o Hin.
  assert (Ho : o = dict_get (word_id w) (user_progress db u)).
  { subst shown. unfold word_list in Hin. apply in_map_iff in Hin.
    destruct Hin as [x [Hx _]]. injection Hx as <- <-. reflexivity. }
  pose proof (dict_of_rows (word_id w)
                (order_by UserProgress_ordering
                   (filter (fun p => user p =? u) (UserProgress_objects db))) [])
    as Hdict.
  fold (user_progress db u) in Hdict. rewrite <- Ho in Hdict.
  assert (Hrows : forall p,
            In p (order_by UserProgress_ordering
                    (filter (fun p => user p =? u) (UserProgress_objects db))) <->
            In p (UserProgress_objects db) /\ user p = u).
  { intros p. rewrite order_by_In, filter_In, Z.eqb_eq. reflexivity. }
  destruct o as [p |].
  - destruct Hdict as [[Hp Hw] | Hd]; [| discriminate].
    apply Hrows in Hp. destruct Hp as [Hp Hu].
    split; [split; [exact Hp | split; [exact Hu | exact Hw]] |].
    intros Hnd q Hq Hqu Hqw. f_equal.
    apply (NoDup_map_inj (fun r => (user r, word r)) _ p q Hnd Hp Hq). congruence.
  - destruct Hdict as [Hnone _]. split.
    + intros p Hp Hu. apply Hnone. apply Hrows. split; assumption.
    + intros _ q Hq Hqu Hqw. exfalso.
      apply (Hnone q); [apply Hrows; split; assumption | exact Hqw].
Qed.



(** The sessions a query ordered by [-start_time] returns descend. *)
Lemma order_by_start_time_desc (l : list StudySession) :
  StronglySorted (fun a b => start_time b <= start_time a)
    (order_by (fun a b => start_time b <=? start_time a) l).
Proof.
  apply Sorted_StronglySorted.
  - intros a b c Hab Hbc. lia.
  - assert (Htotal : forall x y : StudySession,
              (start_time y <=? start_time x) = false ->
              (start_time x <=? start_time y) = true).
    { intros x y Hxy. apply Z.leb_gt in Hxy. apply Z.leb_le. lia. }
    pose proof (order_by_sorted (fun a b => start_time b <=? start_time a)
                  Htotal l) as Hsorted.
    induction Hsorted as [| a l' Hs IH Hhd]; constructor.
    + exact IH.
    + destruct Hhd as [| b l'' Hab]; constructor.
      apply Z.leb_le. exact Hab.
Qed.

(** X15: [sessions] of [progress_view] holds at most 10 sessions, all
    of the user, the latest first: with the user's sessions [rest] left
    out it is a rearrangement of all sessions of the user in which no
    session starts before one that comes after it, and sessions are
    left out only when there are 10 shown. *)
Theorem sessions_latest_ten (db : Database) (u : Z) :
  exists rest,
    Permutation (sessions db u ++ rest)
      (filter (fun s => session_user s =? u) (StudySession_objects db)) /\
    StronglySorted (fun a b => start_time b <= start_time a) (sessions db u ++ rest) /\
    (List.length (sessions db u) <= 10)%nat /\
    ((List.length (sessions db u) < 10)%nat -> rest = []) /\
    forall s, In s (sessions db u) ->
      In s (StudySession_objects db) /\ session_user s = u.
Proof.
  set (mine := filter (fun s => session_user s =? u) (StudySession_objects db)).
  set (sorted := order_by (fun a b => start_time b <=? start_time a) mine).
  exists (skipn 10 sorted).
  assert (Hsessions : sessions db u = firstn 10 sorted) by reflexivity.
  rewrite Hsessions, firstn_skipn.
  split; [apply Permutation_sym, order_by_perm |].
  split; [apply order_by_start_time_desc |].
  split; [apply firstn_le_length |].
  split.
  - intros Hshort. apply skipn_all2. rewrite length_firstn in Hshort. lia.
  - intros s Hs.
    assert (Hin : In s mine).
    { apply (order_by_In (fun a b => start_time b <=? start_time a)).
      fold sorted. rewrite <- (firstn_skipn 10 sorted). apply in_or_app.
      left. exact Hs. }
    apply filter_In in Hin. destruct Hin as [Hin Hu].
    split; [exact Hin | apply Z.eqb_eq; exact Hu].
Qed.

(** A selection of rows by a filter, an order and a slice keeps keys
    that are unique. *)
Lemma NoDup_selection {A K : Type} (key : A -> K) (leb : A -> A -> bool)
    (f : A -> bool) (k : Z) (rows : list A) :
  NoDup (map key rows) ->
  NoDup (map key (slice_to k (order_by leb (filter f rows)))).
Proof.
  intros Hnd. unfold slice_to.
  set (sorted := order_by leb (filter f rows)).
  assert (Hsorted : NoDup (map key sorted)).
  { apply (Permutation_NoDup (l := map key (filter f rows))).
    - apply Permutation_map, order_by_perm.
    - apply NoDup_map_filter. exact Hnd. }
  rewrite <- (firstn_skipn (Z.to_nat k) sorted), map_app in Hsorted.
  apply NoDup_app_remove_r in Hsorted. exact Hsorted.
Qed.

(** X16: under the constraints of the tables no word comes twice in
    the list of a practice, neither among the due rows, nor among the
    new words, nor once as a due row and once as a new word. *)
Theorem practice_words_distinct (db : Database) (u : Z) (now : datetime) :
  constraints db ->
  NoDup (map entry_word (practice_words db u now)).
Proof.
  intros [Hwords [_ [Hpairs _]]].
  unfold practice_words. rewrite map_app, !map_map. cbn [entry_word].
  apply NoDup_app.
  - apply (NoDup_map_inv (fun k => (u, k))). rewrite map_map.
    rewrite (map_ext_in _ (fun p => (user p, word p))).
    + apply NoDup_selection. exact Hpairs.
    + intros p Hp. apply due_words_In in Hp. destruct Hp as [_ [-> _]].
      reflexivity.
  - apply NoDup_selection. exact Hwords.
  - intros k Hdue Hnew.
    apply in_map_iff in Hdue. destruct Hdue as [p [Hk Hp]].
    apply in_map_iff in Hnew. destruct Hnew as [w [Hk' Hw]].
    apply due_words_In in Hp. destruct Hp as [Hin [Hu _]].
    apply new_words_In in Hw. destruct Hw as [_ Hnew].
    apply (proj1 (not_learned_no_progress db u w) Hnew p Hin Hu). congruence.
Qed.

(** ** The scenario *)

Lemma scenario_constraints : constraints (tables scenario_store).
Proof.
  unfold constraints. cbn.
  repeat (split;
          [repeat (apply NoDup_cons; [cbn; intuition congruence |]);
           apply NoDup_nil |]).
  constructor; [cbn; lia | constructor].
Defined.

Lemma scenario_sound : sound_counts (tables scenario_store).
Proof.
  unfold sound_counts. cbn.
  split; (constructor; [cbn; lia | constructor]).
Defined.

Lemma scenario_columns : in_columns (tables scenario_store).
Proof.
  unfold in_columns. cbn.
  split; [repeat (constructor; [reflexivity |]); constructor |].
  split; (constructor; [reflexivity | constructor]).
Defined.

Lemma scenario_room : room_for_answer scenario_store 7 2.
Proof.
  unfold room_for_answer. cbn.
  split; [reflexivity |]. split; [reflexivity |].
  intros q [<- | []] _ Hword. cbn in Hword. discriminate.
Defined.

Lemma practice_words_distinct_witness :
  constraints (tables scenario_store) /\
  NoDup (map entry_word (practice_words (tables scenario_store) 7 60)).
Proof.
  split; [exact scenario_constraints |].
  apply (practice_words_distinct (tables scenario_store) 7 60).
  exact scenario_constraints.
Defined.

Lemma check_answer_keeps_constraints_witness :
  constraints (tables scenario_store) /\
  sound_counts (tables scenario_store) /\
  in_columns (tables scenario_store) /\
  constraints
    (tables (snd (@check_answer scenario_str scenario_store 7 scenario_request
                    100 100 101 101))).
Proof.
  split; [exact scenario_constraints |]. split; [exact scenario_sound |].
  split; [exact scenario_columns |].
  pose proof (@check_answer_keeps_constraints scenario_str scenario_store 7
                scenario_request 100 100 101 101
                scenario_constraints scenario_sound scenario_columns) as Hkeeps.
  cbv zeta in Hkeeps. exact (proj1 Hkeeps).
Defined.

Lemma check_answer_refusals_witness :
  constraints (tables scenario_store) /\
  sound_counts (tables scenario_store) /\
  fst (@check_answer scenario_str scenario_store 7
         (mkRequest "GET" None None None) 100 100 101 101) = InvalidRequest.
Proof.
  split; [exact scenario_constraints |]. split; [exact scenario_sound |].
  pose proof (@check_answer_refusals scenario_str scenario_store 7
                (mkRequest "GET" None None None) 100 100 101 101
                scenario_constraints scenario_sound) as Hrefused.
  cbv zeta in Hrefused. apply (proj1 Hrefused). cbn. discriminate.
Defined.

Lemma check_answer_saves_progress_witness :
  constraints (tables scenario_store) /\
  sound_counts (tables scenario_store) /\
  in_columns (tables scenario_store) /\
  room_for_answer scenario_store 7 2 /\
  method scenario_request = "POST"%string /\
  POST_word_id scenario_request = Some "2"%string /\
  @int_of_str scenario_str "2" = Some 2 /\
  In (mkWord 2 1 "perro" "dog" EmptyString EmptyString "beginner" 0) (Word_objects (tables scenario_store)) /\
  exists p p',
    user p = 7 /\ word p = 2 /\
    update_progress_call p true 101 101 = (p', Return tt).
Proof.
  split; [exact scenario_constraints |]. split; [exact scenario_sound |].
  split; [exact scenario_columns |]. split; [exact scenario_room |].
  split; [reflexivity |]. split; [reflexivity |]. split; [reflexivity |].
  split; [right; left; reflexivity |].
  destruct (@check_answer_saves_progress scenario_str scenario_store 7
              scenario_request 100 100 101 101 (mkWord 2 1 "perro" "dog" EmptyString EmptyString "beginner" 0) "2"
              scenario_constraints scenario_sound scenario_columns scenario_room
              eq_refl eq_refl eq_refl (or_intror (or_introl eq_refl)))
    as [p [p' [_ [Hu [Hw [Hupd _]]]]]].
  exists p, p'. split; [exact Hu |]. split; [exact Hw | exact Hupd].
Defined.

Lemma check_answer_counts_session_witness :
  constraints (tables scenario_store) /\
  sound_counts (tables scenario_store) /\
  in_columns (tables scenario_store) /\
  room_for_answer scenario_store 7 2 /\
  method scenario_request = "POST"%string /\
  POST_word_id scenario_request = Some "2"%string /\
  @int_of_str scenario_str "2" = Some 2 /\
  In (mkWord 2 1 "perro" "dog" EmptyString EmptyString "beginner" 0) (Word_objects (tables scenario_store)) /\
  POST_session_id scenario_request = Some "1"%string /\
  @int_of_str scenario_str "1" = Some 1 /\
  In (mkStudySession 1 7 30 None 2 1) (StudySession_objects (tables scenario_store)) /\
  words_practiced (mkStudySession 1 7 30 None 2 1) < int_max /\
  Word_objects
    (tables (snd (@check_answer scenario_str scenario_store 7 scenario_request
                    100 100 101 101))) =
    Word_objects (tables scenario_store).
Proof.
  split; [exact scenario_constraints |]. split; [exact scenario_sound |].
  split; [exact scenario_columns |]. split; [exact scenario_room |].
  split; [reflexivity |]. split; [reflexivity |]. split; [reflexivity |].
  split; [right; left; reflexivity |].
  split; [reflexivity |]. split; [reflexivity |]. split; [left; reflexivity |].
  split; [reflexivity |].
  pose proof (@check_answer_counts_session scenario_str scenario_store 7
                scenario_request 100 100 101 101 (mkWord 2 1 "perro" "dog" EmptyString EmptyString "beginner" 0)
                (mkStudySession 1 7 30 None 2 1) "2" "1"
                scenario_constraints scenario_sound scenario_columns scenario_room
                eq_refl eq_refl eq_refl
                (or_intror (or_introl eq_refl)) eq_refl eq_refl
                (or_introl eq_refl) eq_refl) as Hcounts.
  cbv zeta in Hcounts. exact (proj2 (proj2 Hcounts)).
Defined.

Lemma answered_word_not_practiced_witness :
  constraints (tables scenario_store) /\
  sound_counts (tables scenario_store) /\
  in_columns (tables scenario_store) /\
  room_for_answer scenario_store 7 2 /\
  method scenario_request = "POST"%string /\
  POST_word_id scenario_request = Some "2"%string /\
  @int_of_str scenario_str "2" = Some 2 /\
  In (mkWord 2 1 "perro" "dog" EmptyString EmptyString "beginner" 0) (Word_objects (tables scenario_store)) /\
  200 < 101 + timedelta_days 1 /\
  forall e,
    In e (practice_words
            (tables (snd (@check_answer scenario_str scenario_store 7
                            scenario_request 100 100 101 101))) 7 200) ->
    entry_word e <> 2.
Proof.
  split; [exact scenario_constraints |]. split; [exact scenario_sound |].
  split; [exact scenario_columns |]. split; [exact scenario_room |].
  split; [reflexivity |]. split; [reflexivity |]. split; [reflexivity |].
  split; [right; left; reflexivity |].
  split; [reflexivity |].
  intros e He.
  pose proof (@answered_word_not_practiced scenario_str scenario_store 7
                scenario_request 100 100 101 101 200 (mkWord 2 1 "perro" "dog" EmptyString EmptyString "beginner" 0) "2"
                scenario_constraints scenario_sound scenario_columns scenario_room
                eq_refl eq_refl eq_refl
                (or_intror (or_introl eq_refl)) eq_refl e He) as Hnot.
  destruct e; exact Hnot.
Defined.


Lemma practice_session_is_found_witness :
  constraints (tables scenario_store) /\
  sound_counts (tables scenario_store) /\
  in_columns (tables scenario_store) /\
  room_for_answer (mkStore (tables scenario_store) 1) 7 2 /\
  in_column (StudySession_seq (tables scenario_store) + 1) = true /\
  practice (tables scenario_store) 7 60 61 =
    (PracticePage
       [inl (mkUserProgress 1 7 1 2 3 1 40 50);
        inr (mkWord 2 1 "perro" "dog" EmptyString EmptyString "beginner" 0)] 2,
     mkDatabase (Word_objects (tables scenario_store))
       (UserProgress_objects (tables scenario_store))
       [mkStudySession 1 7 30 None 2 1; mkStudySession 2 7 61 None 0 0] 2) /\
  In (mkStudySession 2 7 61 None 1 1)
    (StudySession_objects
       (tables (snd (@check_answer scenario_str
                       (mkStore (snd (practice (tables scenario_store) 7 60 61)) 1) 7
                       (mkRequest "POST" (Some "2"%string) (Some "dog"%string)
                          (Some "2"%string))
                       100 100 101 101)))).
Proof.
  split; [exact scenario_constraints |]. split; [exact scenario_sound |].
  split; [exact scenario_columns |]. split; [exact scenario_room |].
  split; [reflexivity |]. split; [reflexivity |].
  pose proof (@practice_session_is_found scenario_str
                (tables scenario_store)
                (snd (practice (tables scenario_store) 7 60 61)) 7 1
                60 61 100 100 101 101
                [inl (mkUserProgress 1 7 1 2 3 1 40 50);
                 inr (mkWord 2 1 "perro" "dog" EmptyString EmptyString "beginner" 0)]
                2
                (mkRequest "POST" (Some "2"%string) (Some "dog"%string)
                   (Some "2"%string))
                (mkWord 2 1 "perro" "dog" EmptyString EmptyString "beginner" 0)
                "2" "2"
                scenario_constraints scenario_sound scenario_columns scenario_room
                eq_refl eq_refl eq_refl eq_refl eq_refl
                (or_intror (or_introl eq_refl)) eq_refl eq_refl) as Hfound.
  cbv zeta in Hfound. exact (proj1 (proj2 Hfound)).
Defined.

(** The scenario run: the user has no row for the second word, so one
    is made and updated, and the session counts the correct answer. *)
Example scenario_answer :
  @check_answer scenario_str scenario_store 7 scenario_request 100 100 101 101 =
    (Answered true "dog" 1 EmptyString,
     mkStore
       (mkDatabase
          (Word_objects (tables scenario_store))
          [mkUserProgress 1 7 1 2 3 1 40 50;
           mkUserProgress 2 7 2 1 1 0 101 (101 + timedelta_days 3)]
          [mkStudySession 1 7 30 None 3 2]
          1)
       2).
Proof. reflexivity. Qed.

(** A row whose counter is the largest integer of a column: the call
    of the update sets the fields and raises in the save, and the view
    fails with that exception and leaves the tables as they were. *)
Example counter_at_the_limit :
  let row := mkUserProgress 1 7 1 0 int_max 0 40 50 in
  let st := mkStore
              (mkDatabase
                 [mkWord 1 1 "gato" "cat" EmptyString EmptyString "beginner" 0]
                 [row] [mkStudySession 1 7 30 None 2 1] 1) 1 in
  update_progress_call row true 1000 2000 =
    (mkUserProgress 1 7 1 1 (int_max + 1) 0 1000 (2000 + timedelta_days 3),
     Raise OverflowError) /\
  @check_answer scenario_str st 7
     (mkRequest "POST" (Some "1"%string) (Some "cat"%string) (Some "1"%string))
     100 100 1000 2000 =
    (Failed (Raised OverflowError), st).
Proof. split; reflexivity. Qed.
